(** * The Pong notebook (examples/notebooks/pong.ipynb)

    A shallow embedding of the notebook's own code: the [PongEnv]
    environment adapter with its observation preprocessing, the
    [PongPolicy] layer hook, [render_env] and the playback loop.

    Python objects live in a store indexed by object identities, so that
    aliasing and fresh allocation are visible; exceptions are explicit
    outcomes; the wall clock is a sequence of readings. *)

From Stdlib Require Import ZArith Lia.
From stdpp Require Import base option list strings gmap.

Local Open Scope Z_scope.

(** ** NumPy arrays, as far as the notebook uses them *)

Module Np.

(** A three-axis array (rows, columns, colour channels) and a two-axis
    one, as nested lists in row-major order. *)
Abbreviation ndarray3 := (list (list (list Z))).
Abbreviation ndarray2 := (list (list Z)).

(** Python resolves a slice bound against the length [n] of the axis: a
    negative bound counts from the end, and the result is clamped to
    [0..n] (this is [slice.indices] for a positive step). *)
Definition slice_bound (i n : Z) : Z :=
  if i <? 0 then Z.max 0 (i + n) else Z.min i n.

(** Keep one element, drop [step - 1], keep one, ... ; [skip] counts the
    elements still to drop before the next one is kept. *)
Fixpoint stride_go {A} (step skip : nat) (l : list A) : list A :=
  match l with
  | [] => []
  | x :: t =>
      match skip with
      | O => x :: stride_go step (Nat.pred step) t
      | S k => stride_go step k t
      end
  end.

Definition stride {A} (step : nat) (l : list A) : list A :=
  stride_go step 0 l.

(** [l[start:stop:step]] for a positive [step]; an omitted bound is
    [None] (start of the axis, resp. its end). *)
Definition slice {A} (start stop : option Z) (step : nat) (l : list A)
  : list A :=
  let n := Z.of_nat (length l) in
  let lo := slice_bound (default 0 start) n in
  let hi := slice_bound (default n stop) n in
  stride step (take (Z.to_nat (hi - lo)) (drop (Z.to_nat lo) l)).

(** [l[:]] *)
Definition full {A} (l : list A) : list A := slice None None 1 l.

(** [np.array(a)]: a copy with the same contents. *)
Definition array (a : ndarray3) : ndarray3 := a.

(** [np.sum] over a run of [uint8] values accumulates in the platform's
    unsigned integer, 64 bits wide, and wraps there. *)
Definition uint_modulus : Z := 2 ^ 64.

Definition sum_uint (l : list Z) : Z :=
  fold_left (fun acc x => (acc + x) mod uint_modulus) l 0.

(** [np.sum(a, axis=2)] *)
Definition sum_axis2 (a : ndarray3) : ndarray2 :=
  (fun row : list (list Z) => sum_uint <$> row) <$> a.

(** [a.shape] of a two-axis array that has a row.  An array is kept as
    the list of its rows, so one without rows does not say how wide its
    rows would be: its column count reads 0 here. *)
Definition shape (a : ndarray2) : nat * nat :=
  (length a, match a with [] => O | r :: _ => length r end).

(** [np.zeros(shape)]; the cells are the floats 0.0, written [0] here,
    as 1.0 is written [1]. *)
Definition zeros (sh : nat * nat) : ndarray2 :=
  replicate (fst sh) (replicate (snd sh) 0).

(** [a != c], cell by cell. *)
Definition not_equal (a : ndarray2) (c : Z) : list (list bool) :=
  (fun row : list Z => (fun g => negb (g =? c)) <$> row) <$> a.

(** [a[mask] = v]: the cells selected by the mask are overwritten. *)
Definition mask_assign (a : ndarray2) (mask : list (list bool)) (v : Z)
  : ndarray2 :=
  zip_with (zip_with (fun m old => if m : bool then v else old)) mask a.

End Np.

(** ** The observation preprocessing of [PongEnv.state]

    The array expressions of the accessor, each as a function of the array
    it reads. *)

Definition background : Z := 233.

(** [a[34:194, :, :]] *)
Definition cropped (a : Np.ndarray3) : Np.ndarray3 :=
  (fun row : list (list Z) => Np.full <$> Np.full row)
    <$> Np.slice (Some 34) (Some 194) 1 a.

(** [cropped[0:-1:2, 0:-1:2]] *)
Definition reduced (c : Np.ndarray3) : Np.ndarray3 :=
  (fun row : list (list Z) => Np.slice (Some 0) (Some (-1)) 2 row)
    <$> Np.slice (Some 0) (Some (-1)) 2 c.

(** [np.sum(reduced, axis=2)] *)
Definition grayscale (r : Np.ndarray3) : Np.ndarray2 := Np.sum_axis2 r.

(** [grayscale != 233] *)
Definition foreground (g : Np.ndarray2) : list (list bool) :=
  Np.not_equal g background.

(** The contents of [bw] when the accessor returns it: zeros of the shape
    of [grayscale], overwritten with 1 where the mask holds. *)
Definition bw (g : Np.ndarray2) : Np.ndarray2 :=
  Np.mask_assign (Np.zeros (Np.shape g)) (foreground g) 1.

Definition preprocess (raw : Np.ndarray3) : Np.ndarray2 :=
  bw (grayscale (reduced (cropped (Np.array raw)))).

(** ** The preprocessing in the words of the specification

    Crop to the play area (rows 34 through 193), keep every second row and
    every second column, add up the colour channels of each pixel, and
    mark the pixels whose sum differs from the background constant. *)

Module Described.

Definition rows_through {A} (first last : nat) (l : list A) : list A :=
  omap (fun i => l !! i) (seq first (S last - first)).

Fixpoint every_second {A} (l : list A) : list A :=
  match l with
  | [] => []
  | x :: t => x :: match t with [] => [] | _ :: t' => every_second t' end
  end.

Definition crop (raw : Np.ndarray3) : Np.ndarray3 :=
  rows_through 34 193 raw.

Definition subsample (a : Np.ndarray3) : Np.ndarray3 :=
  (fun row : list (list Z) => every_second row) <$> every_second a.

Definition channel_sum (px : list Z) : Z := foldr Z.add 0 px.

Definition collapse (a : Np.ndarray3) : Np.ndarray2 :=
  (fun row : list (list Z) => channel_sum <$> row) <$> a.

Definition mark (s : Z) : Z := if s =? 233 then 0 else 1.

Definition threshold (g : Np.ndarray2) : Np.ndarray2 :=
  (fun row : list Z => mark <$> row) <$> g.

Definition observation (raw : Np.ndarray3) : Np.ndarray2 :=
  threshold (collapse (subsample (crop raw))).

End Described.

(** ** Frames of the source resolution *)

(** An array of [rows] by [cols] pixels with [chans] channels each. *)
Definition has_shape (rows cols chans : nat) (a : Np.ndarray3) : Prop :=
  length a = rows /\
  Forall (fun row => length row = cols /\
                     Forall (fun px => length px = chans) row) a.

(** Every channel value is an unsigned byte. *)
Definition is_uint8 (a : Np.ndarray3) : Prop :=
  Forall (Forall (Forall (fun c => 0 <= c < 256))) a.

(** A raw Pong screen: 210 by 160 pixels, three 8-bit channels. *)
Definition raw_frame (a : Np.ndarray3) : Prop :=
  has_shape 210 160 3 a /\ is_uint8 a.

#[global] Instance has_shape_dec rows cols chans a :
  Decision (has_shape rows cols chans a).
Proof. unfold has_shape. apply _. Defined.

#[global] Instance is_uint8_dec a : Decision (is_uint8 a).
Proof. unfold is_uint8. apply _. Defined.

#[global] Instance raw_frame_dec a : Decision (raw_frame a).
Proof. unfold raw_frame. apply _. Defined.

(** [a[i][j]] *)
Definition cell {A} (a : list (list A)) (i j : nat) : option A :=
  a !! i ≫= fun row => row !! j.

(** A concrete frame: background everywhere except one white pixel at
    row 34, column 0. *)
Definition sample_frame : Np.ndarray3 :=
  replicate 34 (replicate 160 [144; 72; 17]) ++
  [[236; 236; 236] :: replicate 159 [144; 72; 17]] ++
  replicate 175 (replicate 160 [144; 72; 17]).

(** ** Exceptions *)

(** The classes at the top of Python's exception hierarchy.  Everything
    that is not listed by name derives from [Exception]. *)
Inductive ExnClass :=
  | BaseException
  | SystemExit
  | KeyboardInterrupt
  | GeneratorExit
  | Exception
  | ExceptionSubclass (cls : string).

(** [issubclass(c, Exception)] *)
Definition issubclass_Exception (c : ExnClass) : bool :=
  match c with
  | Exception | ExceptionSubclass _ => true
  | BaseException | SystemExit | KeyboardInterrupt | GeneratorExit => false
  end.

Record Exn := mkExn { exn_class : ExnClass; exn_str : string }.

Definition IndexError (msg : string) : Exn :=
  mkExn (ExceptionSubclass "IndexError") msg.
Definition AttributeError (msg : string) : Exn :=
  mkExn (ExceptionSubclass "AttributeError") msg.

(** ** The collaborators: Gym and the trainer

    Neither is part of the notebook.  Their operations are taken as an
    interface; the simulator and the trainer keep a state of their own. *)

Class Gym := {
  Sim : Type;
  (** [gym.make(name)] *)
  gym_make : string -> Sim;
  (** [env.reset()] returns the first frame. *)
  gym_reset : Sim -> Sim * Np.ndarray3;
  (** [env.step(action)] returns the next frame and the terminated flag
      (reward and info are not used by the notebook). *)
  gym_step : Sim -> Z -> Sim * Np.ndarray3 * bool;
  (** [env.render()] may raise. *)
  gym_render : Sim -> Sim * option Exn;
  (** [env.observation_space.shape] and [env.action_space.n] *)
  gym_observation_shape : Sim -> list Z;
  gym_n_actions : Sim -> Z;
}.

Class Trainer := {
  A3C : Type;
  (** [dc.rl.A3C(env, policy, model_dir='model', optimizer=...)] *)
  a3c_new : A3C;
  a3c_fit : A3C -> Z -> bool -> A3C;
  a3c_restore : A3C -> A3C;
  a3c_select_action : A3C -> Np.ndarray2 -> A3C * Z;
}.

(** ** The object store *)

Abbreviation loc := positive.

(** The attributes of a [PongEnv] instance. *)
Record EnvAttrs := mkEnvAttrs {
  env : loc;
  name : string;
  _state : option loc;
  _terminated : option bool;
  _state_shape : list Z;
  _n_actions : Z;
}.

Inductive Obj `{Gym} `{Trainer} :=
  | OBlank                       (* an instance before [__init__] ran *)
  | OEnv (a : EnvAttrs)
  | OSim (s : Sim)
  | OArr3 (a : Np.ndarray3)
  | OArr2 (a : Np.ndarray2)
  | OA3C (t : A3C).

(** Calls into the collaborators and the clock, in the order they happen. *)
Inductive Event :=
  | EvMake (name : string)
  | EvA3C
  | EvFit (steps : Z) (restore : bool)
  | EvRestore
  | EvReset
  | EvNow
  | EvRender
  | EvSelectAction
  | EvStep (action : Z).

Record World `{Gym} `{Trainer} := mkWorld {
  heap : gmap loc Obj;
  stdout : list string;
  ticks : nat;
  events : list Event;
}.

Arguments mkWorld {_ _} _ _ _ _.

(** ** Computations: a state and exception monad over the world *)

Inductive Outcome `{Gym} `{Trainer} (A : Type) :=
  | Returns (a : A) (w : World)
  | Raises (e : Exn) (w : World).
Arguments Returns {_ _ _} _ _.
Arguments Raises {_ _ _} _ _.

Section Monad.
Context `{G : Gym} `{T : Trainer}.

Definition Py (A : Type) : Type := World -> Outcome A.

Definition ret {A} (a : A) : Py A := fun w => Returns a w.

Definition raise {A} (e : Exn) : Py A := fun w => Raises e w.

Definition bind {A B} (m : Py A) (k : A -> Py B) : Py B :=
  fun w =>
    match m w with
    | Returns a w' => k a w'
    | Raises e w' => Raises e w'
    end.

(** [try: body / except Exception as e: handler(e)].  The handler runs
    for instances of [Exception] only; anything else keeps propagating. *)
Definition try_except_Exception {A} (body : Py A) (handler : Exn -> Py A)
  : Py A :=
  fun w =>
    match body w with
    | Returns a w' => Returns a w'
    | Raises e w' =>
        if issubclass_Exception (exn_class e) then handler e w'
        else Raises e w'
    end.

Definition world_of {A} (o : Outcome A) : World :=
  match o with Returns _ w | Raises _ w => w end.

(** *** Primitive effects *)

Definition set_heap (h : gmap loc Obj) (w : World) : World :=
  mkWorld h (stdout w) (ticks w) (events w).

(** A new object gets an identity no live object has. *)
Definition alloc (o : Obj) : Py loc :=
  fun w =>
    let l := fresh (dom (heap w)) in
    Returns l (set_heap (<[l := o]> (heap w)) w).

Definition store (l : loc) (o : Obj) : Py unit :=
  fun w => Returns tt (set_heap (<[l := o]> (heap w)) w).

Definition log (ev : Event) : Py unit :=
  fun w => Returns tt (mkWorld (heap w) (stdout w) (ticks w) (events w ++ [ev])).

(** [print(e)] writes [str(e)] as one line; taking [str(e)] and writing
    to the output are assumed to succeed. *)
Definition print (e : Exn) : Py unit :=
  fun w =>
    Returns tt (mkWorld (heap w) (stdout w ++ [exn_str e]) (ticks w) (events w)).

(** Reading an object at the type the code expects of it. *)
Definition get_env (l : loc) : Py EnvAttrs :=
  fun w =>
    match heap w !! l with
    | Some (OEnv a) => Returns a w
    | _ => Raises (AttributeError "not an environment") w
    end.

Definition get_sim (l : loc) : Py Sim :=
  fun w =>
    match heap w !! l with
    | Some (OSim s) => Returns s w
    | _ => Raises (AttributeError "not a Gym environment") w
    end.

Definition get_arr3 (l : loc) : Py Np.ndarray3 :=
  fun w =>
    match heap w !! l with
    | Some (OArr3 a) => Returns a w
    | _ => Raises (IndexError "too many indices for array") w
    end.

Definition get_arr2 (l : loc) : Py Np.ndarray2 :=
  fun w =>
    match heap w !! l with
    | Some (OArr2 a) => Returns a w
    | _ => Raises (IndexError "too many indices for array") w
    end.

Definition get_a3c (l : loc) : Py A3C :=
  fun w =>
    match heap w !! l with
    | Some (OA3C t) => Returns t w
    | _ => Raises (AttributeError "not a trainer") w
    end.

End Monad.

Notation "'let*' x := m 'in' k" := (bind m (fun x => k))
  (at level 10, x name, m at level 100, k at level 200, only parsing).
Notation "'run' m 'in' k" := (bind m (fun _ => k))
  (at level 10, m at level 100, k at level 200, only parsing).

(** Attribute assignment on an environment instance. *)
Definition with_state (a : EnvAttrs) (st : option loc) (term : option bool)
  : EnvAttrs :=
  mkEnvAttrs (env a) (name a) st term (_state_shape a) (_n_actions a).

Definition with_state_shape (a : EnvAttrs) (sh : list Z) : EnvAttrs :=
  mkEnvAttrs (env a) (name a) (_state a) (_terminated a) sh (_n_actions a).

(** ** The library's environment wrapper *)

Module GymEnvironment.
Section GymEnvironment.
Context `{G : Gym} `{T : Trainer}.

(** Modelled from the spec: the constructor of [dc.rl.GymEnvironment],
    whose source is not in the notebook.  It creates the Gym simulation
    of the given name and fills in the bookkeeping attributes of the
    environment interface (shape, action count, no state yet). *)
Definition __init__ (self : loc) (name : string) : Py unit :=
  run log (EvMake name) in
  let* e := alloc (OSim (gym_make name)) in
  let* s := get_sim e in
  store self (OEnv (mkEnvAttrs e name None None
                      (gym_observation_shape s) (gym_n_actions s))).

(** Modelled from the spec: the reset function of the environment
    interface.  It restarts the simulation and keeps the frame it
    returns as the current state. *)
Definition reset (self : loc) : Py unit :=
  let* a := get_env self in
  let* s := get_sim (env a) in
  run log EvReset in
  let '(s', frame) := gym_reset s in
  run store (env a) (OSim s') in
  let* f := alloc (OArr3 frame) in
  store self (OEnv (with_state a (Some f) (Some false))).

(** Modelled from the spec: the step function of the environment
    interface, "taking an action and advancing simulation".  The frame
    the simulation returns becomes the current state. *)
Definition step (self : loc) (action : Z) : Py unit :=
  let* a := get_env self in
  let* s := get_sim (env a) in
  run log (EvStep action) in
  let '(s', frame, term) := gym_step s action in
  run store (env a) (OSim s') in
  let* f := alloc (OArr3 frame) in
  store self (OEnv (with_state a (Some f) (Some term))).

(** Modelled from the spec: the action-count property. *)
Definition n_actions (self : loc) : Py Z :=
  let* a := get_env self in
  ret (_n_actions a).

End GymEnvironment.
End GymEnvironment.

(** ** [PongEnv] *)

Module PongEnv.
Section PongEnv.
Context `{G : Gym} `{T : Trainer}.

(** [super(PongEnv, self).__init__('Pong-v0')], then
    [self._state_shape = (80, 80)]. *)
Definition __init__ (self : loc) : Py unit :=
  run GymEnvironment.__init__ self "Pong-v0" in
  let* a := get_env self in
  store self (OEnv (with_state_shape a [80; 80])).

(** [PongEnv()]: a new instance, then [__init__] on it. *)
Definition new : Py loc :=
  let* self := alloc OBlank in
  run __init__ self in
  ret self.

(** The [state] property.  [np.array] copies the stored frame; [cropped]
    and [reduced] are views of the copy; [np.sum] and [np.zeros] each
    allocate; the mask assignment writes into the array of zeros, which
    is returned.  Without a stored frame ([_state] is [None]) the
    three-axis index fails with [IndexError]. *)
Definition state (self : loc) : Py loc :=
  let* a := get_env self in
  match _state a with
  | None => raise (IndexError "too many indices for array")
  | Some st =>
      let* raw := get_arr3 st in
      let* copy := alloc (OArr3 (Np.array raw)) in
      let* arr := get_arr3 copy in
      let cropped := cropped arr in
      let reduced := reduced cropped in
      let* grayscale := alloc (OArr2 (grayscale reduced)) in
      let* g := get_arr2 grayscale in
      let* bw := alloc (OArr2 (Np.zeros (Np.shape g))) in
      let* z := get_arr2 bw in
      run store bw (OArr2 (Np.mask_assign z (foreground g) 1)) in
      ret bw
  end.

(** [return PongEnv()] *)
Definition __deepcopy__ (self : loc) (memo : gmap loc loc) : Py loc :=
  new.

End PongEnv.
End PongEnv.

(** ** [PongPolicy] *)

Inductive Activation := relu | softmax.

#[local] Set Warnings "-register-all".

(** The layer objects of [deepchem.models.tensorgraph.layers] that the
    policy builds, each with the keyword arguments it is given. *)
Inductive Layer :=
  | Feature (shape : list Z)
  | Conv2D (num_outputs : Z) (in_layers : list Layer) (kernel_size stride : Z)
  | Flatten (in_layers : list Layer)
  | Dense (out_channels : Z) (activation_fn : option Activation)
          (in_layers : list Layer)
  | GRU (n_hidden batch_size : Z) (in_layers : list Layer)
  | Reshape (shape : list Z) (in_layers : list Layer)
  | Concat (in_layers : list Layer).

Module PongPolicy.
Section PongPolicy.
Context `{G : Gym} `{T : Trainer}.

(** [concat], the layer both outputs read. *)
Definition trunk (state : list Layer) : Layer :=
  let conv1 := Conv2D 16 state 8 4 in
  let conv2 := Conv2D 32 [conv1] 4 2 in
  let dense := Dense 256 (Some relu) [Flatten [conv2]] in
  let gru := GRU 16 1 [Reshape [1; -1; 256] [dense]] in
  Concat [dense; Reshape [-1; 16] [gru]].

(** [create_layers(self, state, **kwargs)]; [env] is the notebook's
    global environment, read for [env.n_actions]. *)
Definition create_layers (env : loc) (state : list Layer)
  : Py (gmap string Layer) :=
  let concat := trunk state in
  let* n := GymEnvironment.n_actions env in
  let action_prob := Dense n (Some softmax) [concat] in
  let value := Dense 1 None [concat] in
  ret (<["value" := value]> (<["action_prob" := action_prob]> ∅)).

End PongPolicy.
End PongPolicy.

(** ** Rendering and the playback loop *)

Section Playback.
Context `{G : Gym} `{T : Trainer}.

(** [e.render()] on the Gym environment [e]. *)
Definition render (e : loc) : Py unit :=
  let* s := get_sim e in
  run log EvRender in
  let '(s', failure) := gym_render s in
  run store e (OSim s') in
  match failure with
  | Some ex => raise ex
  | None => ret tt
  end.

(** [try: env.env.render() / except Exception as e: print(e)] *)
Definition render_env (e : loc) : Py unit :=
  try_except_Exception
    (let* a := get_env e in render (env a))
    (fun ex => print ex).

(** The trainer object, [a3c = dc.rl.A3C(env, policy, ...)], and the
    three of its methods the notebook calls.  What the trainer does with
    the environment and the policy it is given is its own business. *)
Definition A3C_new : Py loc :=
  run log EvA3C in
  alloc (OA3C a3c_new).

Definition fit (a3c : loc) (steps : Z) (restore : bool) : Py unit :=
  let* t := get_a3c a3c in
  run log (EvFit steps restore) in
  store a3c (OA3C (a3c_fit t steps restore)).

Definition restore (a3c : loc) : Py unit :=
  let* t := get_a3c a3c in
  run log EvRestore in
  store a3c (OA3C (a3c_restore t)).

Definition select_action (a3c : loc) (obs : loc) : Py Z :=
  let* t := get_a3c a3c in
  let* o := get_arr2 obs in
  run log EvSelectAction in
  let '(t', action) := a3c_select_action t o in
  run store a3c (OA3C t') in
  ret action.

(** The wall clock: [clock n] is the [n]-th reading of
    [datetime.now()], in microseconds (the resolution of [datetime]). *)
Variable clock : nat -> Z.

Definition datetime_now : Py Z :=
  fun w =>
    Returns (clock (ticks w))
            (mkWorld (heap w) (stdout w) (S (ticks w)) (events w ++ [EvNow])).

(** [delta.total_seconds() < seconds], on the microseconds of [delta].
    [total_seconds()] is the microsecond count divided by 10^6 as a
    double; around 120 s neighbouring microseconds are far further apart
    than the rounding error, so the comparison is that of the integers. *)
Definition total_seconds_lt (delta seconds : Z) : bool :=
  delta <? seconds * 1000000.

(** One pass through the body of the [while]. *)
Definition playback_body (e a3c : loc) : Py unit :=
  run render_env e in
  let* obs := PongEnv.state e in
  let* action := select_action a3c obs in
  GymEnvironment.step e action.

(** The [while] loop; [None] when the fuel runs out before the loop
    ends.  The natural number returned counts the passes made. *)
Fixpoint playback (fuel : nat) (e a3c : loc) (start : Z) (passes : nat)
  (w : World) : option (Outcome nat) :=
  match fuel with
  | O => None
  | S fuel' =>
      match datetime_now w with
      | Raises ex w1 => Some (Raises ex w1)
      | Returns now w1 =>
          if total_seconds_lt (now - start) 120 then
            match playback_body e a3c w1 with
            | Raises ex w2 => Some (Raises ex w2)
            | Returns _ w2 => playback fuel' e a3c start (S passes) w2
            end
          else Some (Returns passes w1)
      end
  end.

(** *** The notebook's top level *)

(** [million = 10e6] (ten million, as the source has it) and
    [num_rounds = 0]. *)
Definition million : Z := 10000000.
Definition num_rounds : nat := 0.

(** [for round in range(num_rounds): a3c.fit(million, restore=True)] *)
Fixpoint fit_rounds (rounds : nat) (a3c : loc) : Py unit :=
  match rounds with
  | O => ret tt
  | S r => run fit a3c million true in fit_rounds r a3c
  end.

(** Everything before the [while]: the objects, the training calls, the
    restore and reset, and the start time. *)
Definition setup : Py (loc * loc * Z) :=
  let* e := PongEnv.new in
  let* a3c := A3C_new in
  run fit a3c 1000 false in
  run fit_rounds num_rounds a3c in
  run restore a3c in
  run GymEnvironment.reset e in
  let* start := datetime_now in
  ret (e, a3c, start).

Definition notebook (fuel : nat) (w : World) : option (Outcome nat) :=
  match setup w with
  | Raises ex w' => Some (Raises ex w')
  | Returns (e, a3c, start) w' => playback fuel e a3c start 0 w'
  end.

End Playback.

(** ** Observing the store *)

Section Observers.
Context `{G : Gym} `{T : Trainer}.

Definition env_at (w : World) (l : loc) : option EnvAttrs :=
  match heap w !! l with Some (OEnv a) => Some a | _ => None end.

Definition sim_at (w : World) (l : loc) : option Sim :=
  match heap w !! l with Some (OSim s) => Some s | _ => None end.

Definition frame_at (w : World) (l : loc) : option Np.ndarray3 :=
  match heap w !! l with Some (OArr3 a) => Some a | _ => None end.

Definition grid_at (w : World) (l : loc) : option Np.ndarray2 :=
  match heap w !! l with Some (OArr2 a) => Some a | _ => None end.

(** The raw frame behind [self._state]. *)
Definition stored_frame (w : World) (self : loc) : option Np.ndarray3 :=
  a ← env_at w self; st ← _state a; frame_at w st.

(** [self._state_shape] *)
Definition state_shape (w : World) (self : loc) : option (list Z) :=
  _state_shape <$> env_at w self.

(** The objects an environment instance refers to, itself included:
    the instance, its Gym environment and its current frame. *)
Definition owned (w : World) (self : loc) : gset loc :=
  match env_at w self with
  | Some a =>
      {[self]} ∪ {[env a]} ∪
      match _state a with Some st => {[st]} | None => ∅ end
  | None => ∅
  end.

(** What an environment instance is, identities aside: its attributes
    with the references followed. *)
Record EnvView := mkEnvView {
  view_name : string;
  view_sim : option Sim;
  view_state : option (option Np.ndarray3);
  view_terminated : option bool;
  view_state_shape : list Z;
  view_n_actions : Z;
}.

Definition view (w : World) (self : loc) : option EnvView :=
  a ← env_at w self;
  Some (mkEnvView (name a) (sim_at w (env a))
          (frame_at w <$> _state a)
          (_terminated a) (_state_shape a) (_n_actions a)).

(** A [PongEnv] as its constructor leaves it: a new Pong simulation, no
    frame yet. *)
Definition initial_view : EnvView :=
  let s := gym_make "Pong-v0" in
  mkEnvView "Pong-v0" (Some s) None None [80; 80] (gym_n_actions s).

End Observers.

(** ** The life of an instance *)

Section Calls.
Context `{G : Gym} `{T : Trainer}.

(** The calls that can reach an environment during its life. *)
Inductive Call :=
  | CallPongEnv
  | CallState (self : loc)
  | CallDeepcopy (self : loc) (memo : gmap loc loc)
  | CallReset (self : loc)
  | CallStep (self : loc) (action : Z)
  | CallRenderEnv (self : loc).

(** The world after a call, whether it returned or raised. *)
Definition call (c : Call) (w : World) : World :=
  match c with
  | CallPongEnv => world_of (PongEnv.new w)
  | CallState self => world_of (PongEnv.state self w)
  | CallDeepcopy self memo => world_of (PongEnv.__deepcopy__ self memo w)
  | CallReset self => world_of (GymEnvironment.reset self w)
  | CallStep self action => world_of (GymEnvironment.step self action w)
  | CallRenderEnv self => world_of (render_env self w)
  end.

Definition calls (cs : list Call) (w : World) : World :=
  foldl (fun w c => call c w) w cs.

End Calls.

(** ** What the methods leave in the store *)

Section Results.
Context `{G : Gym} `{T : Trainer}.

(** The three arrays a read of [state] allocates, in order: the copy of
    the frame, the channel sums, and the mask that is returned. *)
Definition state_heap (h : gmap loc Obj) (raw : Np.ndarray3)
  : loc * gmap loc Obj :=
  let h1 := <[fresh (dom h) := OArr3 (Np.array raw)]> h in
  let h2 := <[fresh (dom h1) :=
                OArr2 (grayscale (reduced (cropped (Np.array raw))))]> h1 in
  (fresh (dom h2), <[fresh (dom h2) := OArr2 (preprocess raw)]> h2).

(** What the constructor leaves in the store: the instance and its Gym
    environment, both new. *)
Definition new_self (h : gmap loc Obj) : loc := fresh (dom h).

Definition new_sim (h : gmap loc Obj) : loc :=
  fresh (dom (<[new_self h := OBlank]> h)).

Definition new_attrs (h : gmap loc Obj) : EnvAttrs :=
  let s := gym_make "Pong-v0" in
  mkEnvAttrs (new_sim h) "Pong-v0" None None [80; 80] (gym_n_actions s).

Definition new_world (w : World) : World :=
  let h := heap w in
  mkWorld (<[new_self h := OEnv (new_attrs h)]>
             (<[new_sim h := OSim (gym_make "Pong-v0")]>
                (<[new_self h := OBlank]> h)))
          (stdout w) (ticks w) (events w ++ [EvMake "Pong-v0"]).

(** Only [_state] and [_terminated] differ between [a] and [a']. *)
Definition same_but_state (a a' : EnvAttrs) : Prop :=
  exists st term, a' = with_state a st term.

(** The world after [env.env.render()] came back, with or without an
    exception. *)
Definition rendered (w : World) (l : loc) (s' : Sim) : World :=
  mkWorld (<[l := OSim s']> (heap w)) (stdout w) (ticks w)
          (events w ++ [EvRender]).

Definition printed (w : World) (ex : Exn) : World :=
  mkWorld (heap w) (stdout w ++ [exn_str ex]) (ticks w) (events w).

End Results.

(** ** Notions for the playback loop *)

Section LoopNotions.
Context `{G : Gym} `{T : Trainer}.

(** What the playback loop needs of the store: [e] is an environment
    with a live simulation and a current frame, [a3c] is a trainer. *)
Definition ready_heap (h : gmap loc Obj) (e a3c : loc) : Prop :=
  exists a s st raw t,
    h !! e = Some (OEnv a) /\ h !! env a = Some (OSim s) /\
    _state a = Some st /\ h !! st = Some (OArr3 raw) /\
    h !! a3c = Some (OA3C t).

Definition ready (w : World) (e a3c : loc) : Prop :=
  ready_heap (heap w) e a3c.

(** The events of the playback loop. *)
Definition loop_event (ev : Event) : Prop :=
  match ev with
  | EvNow | EvRender | EvSelectAction | EvStep _ => True
  | _ => False
  end.

(** The events before the loop, in program order: the objects, the
    training calls, restore, reset and the start time. *)
Definition setup_events : list Event :=
  [EvMake "Pong-v0"; EvA3C; EvFit 1000 false]
    ++ replicate num_rounds (EvFit million true)
    ++ [EvRestore; EvReset; EvNow].

(** 120 seconds, in microseconds. *)
Definition two_minutes : Z := 120 * 1000000.

(** The clock readings of a run of the notebook that starts in [w0]:
    the one stored in [start], and the one made by evaluation number
    [k] (from 0) of the loop condition. *)
Definition start_reading (clock : nat -> Z) (w0 : World) : Z :=
  clock (ticks w0).

Definition check_reading (clock : nat -> Z) (w0 : World) (k : nat) : Z :=
  clock (ticks w0 + 1 + k)%nat.

End LoopNotions.

(** ** A concrete setting to evaluate the code in *)

Module Sample.

(** A simulation that shows [sample_frame] at every step and whose
    rendering fails the way [failure] says. *)
Definition gym (failure : option Exn) : Gym := {|
  Sim := nat;
  gym_make _ := O;
  gym_reset _ := (O, sample_frame);
  gym_step s _ := (S s, sample_frame, false);
  gym_render s := (s, failure);
  gym_observation_shape _ := [210; 160; 3];
  gym_n_actions _ := 6;
|}.

Definition trainer : Trainer := {|
  A3C := unit;
  a3c_new := tt;
  a3c_fit t _ _ := t;
  a3c_restore t := t;
  a3c_select_action t _ := (t, 0);
|}.

Definition nothing {G : Gym} {T : Trainer} : World := mkWorld ∅ [] 0 [].

Definition blank (failure : option Exn) : @World (gym failure) trainer :=
  nothing.

(** [env = PongEnv(); env.reset()]: the instance is object 1, its Gym
    environment object 2 and the first frame object 3. *)
Definition started (failure : option Exn)
  : @World (gym failure) trainer :=
  calls [CallPongEnv; CallReset 1%positive] nothing.

(** A clock that is read once a minute. *)
Definition minutes (n : nat) : Z := Z.of_nat n * 60000000.

Definition no_display : Exn :=
  mkExn (ExceptionSubclass "NoSuchDisplayException")
        "Cannot connect to display".

Definition interrupt : Exn := mkExn KeyboardInterrupt "".

End Sample.

(** Case analysis on every lookup through an insertion. *)
Ltac through_inserts := repeat (rewrite lookup_insert; case_decide).


(** ** Frames of any resolution *)

(** Every row of the array has [cols] entries. *)
Definition rectangular {A} (cols : nat) (a : list (list A)) : Prop :=
  Forall (fun row => length row = cols) a.

#[global] Instance rectangular_dec {A} cols (a : list (list A)) :
  Decision (rectangular cols a).
Proof. unfold rectangular. apply _. Defined.

(** The number of rows of a frame of [rows] rows that lie in the play
    area, rows 34 to 193. *)
Definition play_rows (rows : nat) : nat := (Nat.min rows 194 - 34)%nat.

(** The channel sum of the pixel that cell [(i, j)] of the observation
    is taken from. *)
Definition sampled_sum (raw : Np.ndarray3) (i j : nat) : option Z :=
  Described.channel_sum <$> cell raw (34 + 2 * i) (2 * j).

(** ** Further concrete settings *)

Module Other.

(** A simulation that shows [first] after a reset and [next] after every
    step, and renders without failing. *)
Definition gym (first next : Np.ndarray3) : Gym := {|
  Sim := nat;
  gym_make _ := O;
  gym_reset _ := (O, first);
  gym_step s _ := (S s, next, false);
  gym_render s := (s, None);
  gym_observation_shape _ := [210; 160; 3];
  gym_n_actions _ := 6;
|}.

(** [env = PongEnv()], objects 1 and 2. *)
Definition made (first next : Np.ndarray3)
  : @World (gym first next) Sample.trainer :=
  calls [CallPongEnv] Sample.nothing.

(** [env = PongEnv(); env.reset()], the frame is object 3. *)
Definition started (first next : Np.ndarray3)
  : @World (gym first next) Sample.trainer :=
  calls [CallPongEnv; CallReset 1%positive] Sample.nothing.

(** [env = PongEnv(); env.reset(); env.step(0)], the frame is object 4. *)
Definition stepped (first next : Np.ndarray3)
  : @World (gym first next) Sample.trainer :=
  calls [CallPongEnv; CallReset 1%positive; CallStep 1%positive 0]
        Sample.nothing.

(** A frame of 100 rows and 7 columns. *)
Definition narrow_frame : Np.ndarray3 :=
  replicate 100 (replicate 7 [144; 72; 17]).

(** A frame of 20 rows and 7 columns: it ends above the play area. *)
Definition short_frame : Np.ndarray3 :=
  replicate 20 (replicate 7 [144; 72; 17]).

(** The sample frame with its top row, in the score area, painted white. *)
Definition rescored_frame : Np.ndarray3 :=
  replicate 160 [255; 255; 255] :: tail sample_frame.

(** The world when the notebook enters its loop: the instance is object
    1, its Gym environment object 2, the trainer object 3 and the first
    frame object 4. *)
Definition playing : @World (gym narrow_frame narrow_frame) Sample.trainer :=
  world_of (setup Sample.minutes Sample.nothing).

End Other.

(** ** Calls on one instance and what they may touch *)

Section Footprints.
Context `{G : Gym} `{T : Trainer}.

(** The call is a method call on the instance [t], or constructs a new
    instance. *)
Definition call_on (t : loc) (c : Call) : Prop :=
  match c with
  | CallPongEnv | CallDeepcopy _ _ => True
  | CallState self | CallReset self | CallStep self _
  | CallRenderEnv self => self = t
  end.

(** From [w] to [w'] no object disappeared, the objects that existed and
    do not belong to [t] are unchanged, and whatever belongs to [t] now
    either belonged to it before or is new. *)
Definition footprint (w w' : World) (t : loc) : Prop :=
  dom (heap w) ⊆ dom (heap w') /\
  (forall l, l ∈ dom (heap w) -> l ∉ owned w t ->
             heap w' !! l = heap w !! l) /\
  owned w' t ⊆ owned w t ∪ (dom (heap w') ∖ dom (heap w)).

End Footprints.

(** ** One pass of the playback loop, spelled out *)

Section Pass.
Context `{G : Gym} `{T : Trainer}.

(** What the trainer answers when it is shown the observation of the
    frame [raw]: its next state and the action it selects. *)
Definition selected (t : A3C) (raw : Np.ndarray3) : A3C * Z :=
  a3c_select_action t (preprocess raw).

(** What [print] adds to the output for a rendering that came back with
    [failure]. *)
Definition printed_lines (failure : option Exn) : list string :=
  match failure with Some ex => [exn_str ex] | None => [] end.

End Pass.

(** How often an event of a kind occurs. *)
Definition count_events (kind : Event -> bool) (evs : list Event) : nat :=
  length (List.filter kind evs).

Definition is_now (ev : Event) : bool :=
  match ev with EvNow => true | _ => false end.
Definition is_render (ev : Event) : bool :=
  match ev with EvRender => true | _ => false end.
Definition is_select (ev : Event) : bool :=
  match ev with EvSelectAction => true | _ => false end.
Definition is_step (ev : Event) : bool :=
  match ev with EvStep _ => true | _ => false end.

#[local] Set Warnings "-clear-no-such-hyp".

(** * Slices *)

Section Slices.
Context {A : Type}.
Implicit Types l : list A.

Lemma stride_one_go l : Np.stride_go 1 0 l = l.
Proof. induction l as [|x l IH]; simpl; [done | by rewrite IH]. Qed.

Lemma stride_one l : Np.stride 1 l = l.
Proof. apply stride_one_go. Qed.

Lemma full_id l : Np.full l = l.
Proof.
  unfold Np.full, Np.slice, Np.slice_bound; simpl.
  assert (0 <= Z.of_nat (length l)) by lia.
  destruct (Z.ltb_spec 0 0); [lia|].
  destruct (Z.ltb_spec (Z.of_nat (length l)) 0); [lia|].
  rewrite Z.min_id, Z.min_l, Z.sub_0_r, Nat2Z.id by lia.
  simpl. rewrite firstn_all. apply stride_one.
Qed.

Lemma stride_two_go l :
  Np.stride_go 2 0 l = Described.every_second l /\
  Np.stride_go 2 1 l = Described.every_second (tail l).
Proof.
  induction l as [|x l [IH0 IH1]]; [done|].
  simpl. split; [|done].
  rewrite IH1. by destruct l.
Qed.

Lemma stride_two l : Np.stride 2 l = Described.every_second l.
Proof. apply stride_two_go. Qed.

(** Dropping the last element of a list of even length does not change
    which elements sit at the even positions. *)
Lemma every_second_init (k : nat) l :
  length l = S (S (k + k)) ->
  Described.every_second (take (S (k + k)) l) = Described.every_second l.
Proof.
  revert l. induction k as [|k IH]; intros l Hl.
  - destruct l as [|x [|y [|z l]]]; simplify_eq/=; done.
  - destruct l as [|x [|y l]]; [done|done|].
    replace (S (S k + S k)) with (S (S (S (k + k)))) by lia.
    cbn [take Described.every_second]. f_equal.
    apply IH. simpl in Hl. lia.
Qed.

(** [l[0:-1:2]] on an axis of even length takes every second element. *)
Lemma slice_halves (k : nat) l :
  length l = S (S (k + k)) ->
  Np.slice (Some 0) (Some (-1)) 2 l = Described.every_second l.
Proof.
  intros Hl. unfold Np.slice, Np.slice_bound; simpl default.
  destruct (Z.ltb_spec 0 0); [lia|].
  destruct (Z.ltb_spec (-1) 0); [|lia].
  rewrite Z.min_l, Z.max_r, Z.sub_0_r by lia.
  simpl drop. rewrite stride_two.
  replace (Z.to_nat (-1 + Z.of_nat (length l))) with (S (k + k)) by lia.
  by apply every_second_init.
Qed.

Lemma take_drop_rows (n k : nat) l :
  (k + n <= length l)%nat ->
  take n (drop k l) = omap (fun i => l !! i) (seq k n).
Proof.
  revert k. induction n as [|n IH]; intros k Hk; [done|].
  destruct (lookup_lt_is_Some_2 l k) as [x Hx]; [lia|].
  rewrite (drop_S _ _ _ Hx). simpl. rewrite Hx. f_equal. apply IH. lia.
Qed.

(** [l[34:194]] on an axis of 210 is rows 34 through 193. *)
Lemma slice_play_area l :
  length l = 210%nat ->
  Np.slice (Some 34) (Some 194) 1 l = Described.rows_through 34 193 l.
Proof.
  intros Hl. unfold Np.slice, Np.slice_bound, Described.rows_through.
  rewrite Hl. simpl default.
  replace (Z.to_nat _) with 160%nat by (vm_compute; reflexivity).
  replace (Z.to_nat _) with 34%nat by (vm_compute; reflexivity).
  rewrite stride_one. apply take_drop_rows. rewrite Hl. lia.
Qed.

Lemma every_second_lookup l (i : nat) :
  Described.every_second l !! i = l !! (2 * i)%nat.
Proof.
  revert l. induction i as [|i IH]; intros l.
  - by destruct l.
  - destruct l as [|x [|y l]]; [done|done|].
    replace (2 * S i)%nat with (S (S (2 * i))) by lia.
    simpl. apply IH.
Qed.

Lemma every_second_length (k : nat) l :
  length l = (k + k)%nat -> length (Described.every_second l) = k.
Proof.
  revert l. induction k as [|k IH]; intros l Hl.
  - by destruct l.
  - destruct l as [|x [|y l]]; simpl in Hl; [lia|lia|].
    cbn [Described.every_second length]. f_equal. apply IH. lia.
Qed.

Lemma every_second_Forall (P : A -> Prop) l :
  Forall P l -> Forall P (Described.every_second l).
Proof.
  intros H. apply Forall_lookup. intros i x.
  rewrite every_second_lookup. by apply (proj1 (Forall_lookup P l)).
Qed.

Lemma rows_through_play_area l :
  length l = 210%nat ->
  Described.rows_through 34 193 l = take 160 (drop 34 l).
Proof.
  intros Hl. unfold Described.rows_through.
  symmetry. apply (take_drop_rows 160 34). lia.
Qed.

End Slices.

(** The slice [0:-1:2] stops before the last element: on an axis of odd
    length it leaves out the last element although its position is even. *)
Example slice_even_axis :
  Np.slice (Some 0) (Some (-1)) 2 [10; 11; 12; 13; 14; 15] = [10; 12; 14].
Proof. reflexivity. Qed.

Example slice_odd_axis :
  Np.slice (Some 0) (Some (-1)) 2 [10; 11; 12; 13; 14] = [10; 12].
Proof. reflexivity. Qed.

Example slice_clamps :
  Np.slice (Some 3) (Some 194) 1 [10; 11; 12; 13; 14] = [13; 14].
Proof. reflexivity. Qed.

(** * The preprocessing, stage by stage *)

(** The white pixel of the sample frame is the one cell set. *)
Example sample_cells :
  cell (preprocess sample_frame) 0 0 = Some 1 /\
  cell (preprocess sample_frame) 0 1 = Some 0 /\
  cell (preprocess sample_frame) 79 79 = Some 0 /\
  cell (preprocess sample_frame) 80 0 = None.
Proof. vm_compute. done. Qed.

Lemma cropped_described (a : Np.ndarray3) :
  length a = 210%nat -> cropped a = Described.crop a.
Proof.
  intros Ha. unfold cropped, Described.crop.
  rewrite slice_play_area by done.
  rewrite <- (list_fmap_id (Described.rows_through 34 193 a)) at 2.
  apply list_fmap_ext. intros _ row _.
  rewrite full_id. rewrite <- (list_fmap_id row) at 2.
  apply list_fmap_ext. intros _ px _. apply full_id.
Qed.

Lemma reduced_described (c : Np.ndarray3) :
  length c = 160%nat -> Forall (fun row => length row = 160%nat) c ->
  reduced c = Described.subsample c.
Proof.
  intros Hc Hrows. unfold reduced, Described.subsample.
  rewrite (slice_halves 79) by exact Hc.
  apply Forall_fmap_ext_1.
  eapply Forall_impl; [by apply every_second_Forall|].
  intros row Hrow. apply (slice_halves 79). exact Hrow.
Qed.

(** Three bytes do not overflow the accumulator of [np.sum]. *)
Lemma sum_uint_bytes (px : list Z) :
  length px = 3%nat -> Forall (fun c => 0 <= c < 256) px ->
  Np.sum_uint px = Described.channel_sum px.
Proof.
  intros Hlen Hpx.
  destruct px as [|r [|g [|b [|? ?]]]]; try done.
  apply Forall_cons in Hpx as [Hr Hpx].
  apply Forall_cons in Hpx as [Hg Hpx].
  apply Forall_cons in Hpx as [Hb _].
  unfold Np.sum_uint, Np.uint_modulus, Described.channel_sum.
  cbn [fold_left foldr].
  change (2 ^ 64) with 18446744073709551616.
  rewrite (Z.mod_small (0 + r)) by lia.
  rewrite (Z.mod_small (0 + r + g)) by lia.
  rewrite Z.mod_small by lia. lia.
Qed.

Lemma grayscale_described (r : Np.ndarray3) :
  Forall (Forall (fun px => length px = 3%nat)) r ->
  Forall (Forall (Forall (fun c => 0 <= c < 256))) r ->
  grayscale r = Described.collapse r.
Proof.
  intros Hlen Hu8. unfold grayscale, Np.sum_axis2, Described.collapse.
  apply Forall_fmap_ext_1, Forall_lookup. intros i row Hi.
  apply Forall_fmap_ext_1, Forall_lookup. intros j px Hj.
  apply sum_uint_bytes.
  - exact (Forall_lookup_1 _ _ _ _ (Forall_lookup_1 _ _ _ _ Hlen Hi) Hj).
  - exact (Forall_lookup_1 _ _ _ _ (Forall_lookup_1 _ _ _ _ Hu8 Hi) Hj).
Qed.

(** Writing 1 through the mask into a row of zeros. *)
Lemma mask_row (row : list Z) :
  zip_with (fun (m : bool) (old : Z) => if m then 1 else old)
           ((fun g => negb (g =? background)) <$> row)
           (replicate (length row) 0)
  = Described.mark <$> row.
Proof.
  induction row as [|g row IH]; [done|].
  csimpl. rewrite IH. f_equal.
  unfold Described.mark, background. by destruct (g =? 233).
Qed.

Lemma bw_described (g : Np.ndarray2) (cols : nat) :
  Forall (fun row => length row = cols) g ->
  bw g = Described.threshold g.
Proof.
  intros Hrect. unfold bw, Np.mask_assign, Np.zeros, Np.shape,
    foreground, Np.not_equal, Described.threshold. simpl.
  assert (match g with [] => 0%nat | r :: _ => length r end = cols \/ g = [])
    as [Hc | ->]; [| |done].
  { destruct g as [|r g]; [by right|left]. by apply Forall_cons in Hrect as [? _]. }
  rewrite Hc. clear Hc.
  induction g as [|row g IH]; [done|].
  apply Forall_cons in Hrect as [Hrow Hrect].
  csimpl. rewrite IH by done. f_equal.
  rewrite <- Hrow. apply mask_row.
Qed.

(** * Shapes along the pipeline *)

Lemma crop_take_drop (raw : Np.ndarray3) :
  length raw = 210%nat -> Described.crop raw = take 160 (drop 34 raw).
Proof. apply rows_through_play_area. Qed.

Lemma crop_shape (raw : Np.ndarray3) :
  has_shape 210 160 3 raw -> has_shape 160 160 3 (Described.crop raw).
Proof.
  intros [Hlen Hrows]. rewrite crop_take_drop by done. split.
  - rewrite length_take, length_drop, Hlen. reflexivity.
  - by apply Forall_take, Forall_drop.
Qed.

Lemma crop_uint8 (raw : Np.ndarray3) :
  length raw = 210%nat -> is_uint8 raw -> is_uint8 (Described.crop raw).
Proof.
  intros Hlen Hu8. rewrite crop_take_drop by done.
  by apply Forall_take, Forall_drop.
Qed.

Lemma subsample_shape (k m chans : nat) (a : Np.ndarray3) :
  has_shape (k + k) (m + m) chans a ->
  has_shape k m chans (Described.subsample a).
Proof.
  intros [Hlen Hrows]. unfold Described.subsample. split.
  - rewrite length_fmap. by apply every_second_length.
  - apply Forall_fmap. eapply Forall_impl; [by apply every_second_Forall|].
    intros row [Hrow Hpx]. simpl. split.
    + by apply every_second_length.
    + by apply every_second_Forall.
Qed.

Lemma subsample_uint8 (a : Np.ndarray3) :
  is_uint8 a -> is_uint8 (Described.subsample a).
Proof.
  intros Hu8. unfold is_uint8, Described.subsample.
  apply Forall_fmap. eapply Forall_impl; [by apply every_second_Forall|].
  intros row Hrow. simpl. by apply every_second_Forall.
Qed.

Lemma has_shape_rows (rows cols chans : nat) (a : Np.ndarray3) :
  has_shape rows cols chans a -> Forall (fun row => length row = cols) a.
Proof. intros [_ H]. eapply Forall_impl; [exact H|]. by intros row [? _]. Qed.

Lemma has_shape_pixels (rows cols chans : nat) (a : Np.ndarray3) :
  has_shape rows cols chans a ->
  Forall (Forall (fun px => length px = chans)) a.
Proof. intros [_ H]. eapply Forall_impl; [exact H|]. by intros row [_ ?]. Qed.

Lemma collapse_rows (cols : nat) (a : Np.ndarray3) :
  Forall (fun row => length row = cols) a ->
  Forall (fun row => length row = cols) (Described.collapse a).
Proof.
  intros H. unfold Described.collapse. apply Forall_fmap.
  eapply Forall_impl; [exact H|]. intros row Hrow. simpl.
  by rewrite length_fmap.
Qed.

(** On a raw frame the accessor's array expression is the described
    pipeline, stage by stage. *)
Lemma preprocess_described (raw : Np.ndarray3) :
  raw_frame raw -> preprocess raw = Described.observation raw.
Proof.
  intros [Hshape Hu8]. unfold preprocess, Np.array, Described.observation.
  pose proof (crop_shape _ Hshape) as Hc.
  pose proof (subsample_shape 80 80 3 _ Hc) as Hs.
  rewrite cropped_described by apply Hshape.
  rewrite reduced_described;
    [| apply Hc | by apply (has_shape_rows 160 160 3)].
  rewrite grayscale_described;
    [| by apply (has_shape_pixels 80 80 3)
     | by apply subsample_uint8, crop_uint8; [apply Hshape|] ].
  apply (bw_described _ 80), collapse_rows.
  by apply (has_shape_rows 80 80 3).
Qed.

(** The shape of the result needs the resolution only, not the range of
    the channel values. *)
Lemma preprocess_shape (raw : Np.ndarray3) :
  has_shape 210 160 3 raw ->
  length (preprocess raw) = 80%nat /\
  Forall (fun row => length row = 80%nat) (preprocess raw).
Proof.
  intros Hshape. unfold preprocess, Np.array.
  pose proof (crop_shape _ Hshape) as Hc.
  pose proof (subsample_shape 80 80 3 _ Hc) as Hs.
  rewrite cropped_described by apply Hshape.
  rewrite reduced_described;
    [| apply Hc | by apply (has_shape_rows 160 160 3)].
  assert (Forall (fun row => length row = 80%nat)
            (grayscale (Described.subsample (Described.crop raw)))) as Hg.
  { unfold grayscale, Np.sum_axis2. apply Forall_fmap.
    eapply Forall_impl; [by apply (has_shape_rows 80 80 3)|].
    intros row Hrow. simpl. by rewrite length_fmap. }
  rewrite (bw_described _ 80) by done.
  unfold Described.threshold. split.
  - rewrite length_fmap. unfold grayscale, Np.sum_axis2.
    rewrite length_fmap. apply Hs.
  - apply Forall_fmap. eapply Forall_impl; [exact Hg|].
    intros row Hrow. simpl. by rewrite length_fmap.
Qed.

(** The pixel behind cell [(i, j)] of the described observation. *)
Lemma observation_cell (raw : Np.ndarray3) (i j : nat) :
  has_shape 210 160 3 raw -> (i < 80)%nat -> (j < 80)%nat ->
  exists px,
    cell raw (34 + 2 * i) (2 * j) = Some px /\
    cell (Described.observation raw) i j
      = Some (Described.mark (Described.channel_sum px)).
Proof.
  intros [Hlen Hrows] Hi Hj.
  destruct (lookup_lt_is_Some_2 raw (34 + 2 * i)) as [row Hrow]; [lia|].
  pose proof (Forall_lookup_1 _ _ _ _ Hrows Hrow) as [Hcols _].
  destruct (lookup_lt_is_Some_2 row (2 * j)) as [px Hpx]; [lia|].
  assert (Described.crop raw !! (2 * i)%nat = Some row) as Hcrop.
  { rewrite crop_take_drop by done.
    rewrite lookup_take_lt by lia. by rewrite lookup_drop. }
  exists px. unfold cell. rewrite Hrow. split; [exact Hpx|].
  unfold Described.observation, Described.threshold, Described.collapse,
    Described.subsample.
  rewrite !list_lookup_fmap, every_second_lookup, Hcrop.
  cbn [fmap option_fmap option_map mbind option_bind].
  by rewrite !list_lookup_fmap, every_second_lookup, Hpx.
Qed.

(** * The store under the environment's methods *)

Section Store.
Context `{G : Gym} `{T : Trainer}.
Implicit Types (w : World) (l self : loc).

Lemma fresh_not_live w : heap w !! fresh (dom (heap w)) = None.
Proof. apply not_elem_of_dom, is_fresh. Qed.

Lemma insert_fresh_old (h : gmap loc Obj) (o : Obj) l :
  l ∈ dom h -> <[fresh (dom h) := o]> h !! l = h !! l.
Proof.
  intros Hl. apply lookup_insert_ne. intros <-. by apply (is_fresh (dom h)).
Qed.

Lemma heap_set_heap (h : gmap loc Obj) w : heap (set_heap h w) = h.
Proof. done. Qed.

Lemma set_heap_set_heap (h h' : gmap loc Obj) w :
  set_heap h' (set_heap h w) = set_heap h' w.
Proof. done. Qed.

Lemma stored_frame_inv w self raw :
  stored_frame w self = Some raw ->
  exists a st,
    heap w !! self = Some (OEnv a) /\ _state a = Some st /\
    heap w !! st = Some (OArr3 raw).
Proof.
  unfold stored_frame, env_at, frame_at. intros H.
  destruct (heap w !! self) as [[]|] eqn:Hself; simplify_eq/=.
  destruct (_state a) as [st|] eqn:Hst; simplify_eq/=.
  destruct (heap w !! st) as [[]|] eqn:Hfr; simplify_eq/=.
  eauto.
Qed.

Lemma state_returns w self raw :
  stored_frame w self = Some raw ->
  PongEnv.state self w
  = Returns (state_heap (heap w) raw).1
            (set_heap (state_heap (heap w) raw).2 w).
Proof.
  intros (a & st & Hself & Hst & Hraw)%stored_frame_inv.
  unfold PongEnv.state, bind at 1, get_env. rewrite Hself, Hst.
  unfold bind at 1, get_arr3 at 1. rewrite Hraw.
  unfold bind, alloc, get_arr3, get_arr2, store, ret, state_heap.
  cbn [heap set_heap fst snd]. rewrite lookup_insert_eq.
  cbn [heap set_heap]. rewrite lookup_insert_eq.
  cbn [heap set_heap]. rewrite lookup_insert_eq.
  cbn [heap set_heap]. rewrite insert_insert_eq. reflexivity.
Qed.

Lemma state_raises w self :
  stored_frame w self = None ->
  exists ex, PongEnv.state self w = Raises ex w.
Proof.
  unfold stored_frame, env_at, frame_at, PongEnv.state, bind at 1, get_env.
  intros H.
  destruct (heap w !! self) as [[]|] eqn:Hself; simpl in *; eauto.
  destruct (_state a) as [st|] eqn:Hst; simpl in *; [|by eauto].
  unfold bind at 1, get_arr3 at 1.
  destruct (heap w !! st) as [[]|] eqn:Hfr; simplify_eq/=; eauto.
Qed.

Lemma state_heap_fresh (h : gmap loc Obj) raw :
  (state_heap h raw).1 ∉ dom h.
Proof.
  unfold state_heap. cbn [fst snd].
  match goal with |- fresh ?X ∉ _ => pose proof (is_fresh X) as Hf end.
  rewrite !dom_insert_L in Hf |- *. set_solver.
Qed.

Lemma state_heap_old (h : gmap loc Obj) raw l :
  l ∈ dom h -> (state_heap h raw).2 !! l = h !! l.
Proof.
  intros Hl. unfold state_heap. cbn [fst snd].
  rewrite !insert_fresh_old; [done|done| |];
    rewrite !dom_insert_L; set_solver.
Qed.

Lemma state_heap_result (h : gmap loc Obj) raw :
  (state_heap h raw).2 !! (state_heap h raw).1 = Some (OArr2 (preprocess raw)).
Proof. unfold state_heap. cbn [fst snd]. apply lookup_insert_eq. Qed.

Lemma state_heap_dom (h : gmap loc Obj) raw :
  dom h ⊆ dom (state_heap h raw).2.
Proof. unfold state_heap. cbn [fst snd]. rewrite !dom_insert_L. set_solver. Qed.

(** A read leaves the stored frame where it was. *)
Lemma state_keeps_frame w self raw :
  stored_frame w self = Some raw ->
  stored_frame (set_heap (state_heap (heap w) raw).2 w) self = Some raw.
Proof.
  intros H. pose proof H as (a & st & Hself & Hst & Hraw)%stored_frame_inv.
  unfold stored_frame, env_at, frame_at. rewrite !heap_set_heap.
  rewrite state_heap_old by (by apply elem_of_dom; eexists).
  rewrite Hself. cbn [mbind option_bind]. rewrite Hst. cbn [mbind option_bind].
  rewrite state_heap_old by (by apply elem_of_dom; eexists).
  by rewrite Hraw.
Qed.

End Store.

(** * The constructor and the duplication hook *)

Section Constructor.
Context `{G : Gym} `{T : Trainer}.
Implicit Types (w : World) (l self : loc).

Lemma new_self_fresh (h : gmap loc Obj) : new_self h ∉ dom h.
Proof. apply is_fresh. Qed.

Lemma new_sim_fresh (h : gmap loc Obj) : new_sim h ∉ dom h.
Proof.
  unfold new_sim.
  pose proof (is_fresh (dom (<[new_self h := OBlank]> h))) as Hf.
  intros Hin. apply Hf.
  eapply elem_of_weaken; [exact Hin | apply dom_insert_subseteq].
Qed.

Lemma new_sim_self (h : gmap loc Obj) : new_sim h ≠ new_self h.
Proof.
  unfold new_sim. intros Heq.
  pose proof (is_fresh (dom (<[new_self h := OBlank]> h))) as Hf.
  apply Hf. rewrite Heq. apply elem_of_dom.
  rewrite lookup_insert_eq. by eexists.
Qed.

Lemma new_returns w :
  PongEnv.new w = Returns (new_self (heap w)) (new_world w).
Proof.
  unfold PongEnv.new, PongEnv.__init__, GymEnvironment.__init__.
  unfold bind, alloc, log, get_sim, get_env, store, ret, set_heap.
  cbn [heap stdout ticks events].
  fold (new_self (heap w)). fold (new_sim (heap w)).
  rewrite lookup_insert_eq. cbn [heap stdout ticks events].
  rewrite lookup_insert_eq. cbn [heap stdout ticks events].
  unfold new_world, with_state_shape, new_attrs.
  cbn [env name _state _terminated _n_actions].
  by rewrite insert_insert_eq.
Qed.

Lemma deepcopy_returns w self (memo : gmap loc loc) :
  PongEnv.__deepcopy__ self memo w
  = Returns (new_self (heap w)) (new_world w).
Proof. apply new_returns. Qed.

Lemma new_world_old w l :
  l ∈ dom (heap w) -> heap (new_world w) !! l = heap w !! l.
Proof.
  intros Hl. unfold new_world. cbn [heap].
  pose proof (new_self_fresh (heap w)). pose proof (new_sim_fresh (heap w)).
  rewrite !lookup_insert_ne; [done| | |]; by intros <-.
Qed.

Lemma new_world_self w :
  heap (new_world w) !! new_self (heap w) = Some (OEnv (new_attrs (heap w))).
Proof. unfold new_world. cbn [heap]. apply lookup_insert_eq. Qed.

Lemma new_world_sim w :
  heap (new_world w) !! new_sim (heap w) = Some (OSim (gym_make "Pong-v0")).
Proof.
  unfold new_world. cbn [heap].
  rewrite lookup_insert_ne by (apply not_eq_sym, new_sim_self).
  apply lookup_insert_eq.
Qed.

Lemma new_world_view w :
  view (new_world w) (new_self (heap w)) = Some initial_view.
Proof.
  unfold view, env_at, sim_at. rewrite new_world_self.
  cbn [mbind option_bind new_attrs env name _state _terminated
       _state_shape _n_actions].
  by rewrite new_world_sim.
Qed.

Lemma new_world_owned w :
  owned (new_world w) (new_self (heap w))
  = {[new_self (heap w)]} ∪ {[new_sim (heap w)]}.
Proof.
  unfold owned, env_at. rewrite new_world_self.
  cbn [new_attrs env _state]. apply union_empty_r_L.
Qed.

End Constructor.

(** * What a call can change of an existing instance *)

Section Lifetime.
Context `{G : Gym} `{T : Trainer}.
Implicit Types (w : World) (l self : loc) (a : EnvAttrs).

Lemma same_but_state_refl a : same_but_state a a.
Proof. exists (_state a), (_terminated a). by destruct a. Qed.

Lemma same_but_state_trans a1 a2 a3 :
  same_but_state a1 a2 -> same_but_state a2 a3 -> same_but_state a1 a3.
Proof. intros (s1 & t1 & ->) (s2 & t2 & ->). by exists s2, t2. Qed.

Lemma same_but_state_shape a a' :
  same_but_state a a' -> _state_shape a' = _state_shape a.
Proof. by intros (st & term & ->). Qed.

Lemma env_at_Some w l a :
  env_at w l = Some a <-> heap w !! l = Some (OEnv a).
Proof.
  unfold env_at. split; [|by intros ->].
  by destruct (heap w !! l) as [[]|]; intros; simplify_eq.
Qed.

Lemma env_at_live w l a : env_at w l = Some a -> l ∈ dom (heap w).
Proof. intros H%env_at_Some. apply elem_of_dom. by eexists. Qed.

Lemma new_keeps w self a :
  env_at w self = Some a -> env_at (new_world w) self = Some a.
Proof.
  intros H. apply env_at_Some. rewrite new_world_old by by eapply env_at_live.
  by apply env_at_Some.
Qed.

Lemma state_keeps w self l a :
  env_at w l = Some a -> env_at (world_of (PongEnv.state self w)) l = Some a.
Proof.
  intros H. destruct (stored_frame w self) as [raw|] eqn:Hraw.
  - rewrite state_returns with (raw := raw) by done. cbn [world_of].
    apply env_at_Some. rewrite heap_set_heap.
    rewrite state_heap_old by by eapply env_at_live.
    by apply env_at_Some.
  - destruct (state_raises _ _ Hraw) as [ex ->]. done.
Qed.

(** Storing a frame the simulation returned: the shared tail of
    [reset] and [step]. *)
Lemma store_frame_keeps w self l a a0 s s' frame term :
  env_at w l = Some a -> heap w !! self = Some (OEnv a0) ->
  heap w !! env a0 = Some (OSim s) ->
  exists a',
    same_but_state a a' /\
    <[self := OEnv (with_state a0 (Some (fresh (dom (<[env a0 := OSim s']> (heap w)))))
                      term)]>
      (<[fresh (dom (<[env a0 := OSim s']> (heap w))) := OArr3 frame]>
         (<[env a0 := OSim s']> (heap w))) !! l = Some (OEnv a').
Proof.
  intros Hl%env_at_Some Hself Hsim.
  destruct (decide (l = self)) as [->|Hne].
  - rewrite lookup_insert_eq. simplify_eq. eexists. split; [|done].
    by eexists _, _.
  - exists a. split; [apply same_but_state_refl|].
    rewrite lookup_insert_ne by done.
    rewrite lookup_insert_ne.
    + rewrite lookup_insert_ne; [done|]. intros <-. congruence.
    + intros <-.
      apply (is_fresh (dom (<[env a0 := OSim s']> (heap w)))).
      eapply elem_of_weaken; [|apply dom_insert_subseteq].
      apply elem_of_dom. by eexists.
Qed.

Lemma reset_keeps w self l a :
  env_at w l = Some a ->
  exists a', same_but_state a a' /\
             env_at (world_of (GymEnvironment.reset self w)) l = Some a'.
Proof.
  intros Hl. unfold GymEnvironment.reset, bind at 1, get_env.
  destruct (heap w !! self) as [[| a0 | | | |]|] eqn:Hself;
    try (exists a; split; [apply same_but_state_refl|exact Hl]).
  unfold bind at 1, get_sim.
  destruct (heap w !! env a0) as [[| | s | | |]|] eqn:Hsim;
    try (exists a; split; [apply same_but_state_refl|exact Hl]).
  destruct (gym_reset s) as [s' frame].
  unfold bind, log, store, alloc, set_heap. cbn [heap world_of].
  destruct (store_frame_keeps w self l a a0 s s' frame (Some false))
    as (a' & Hsame & Hlook); [done..|].
  exists a'. split; [done|]. by apply env_at_Some.
Qed.

Lemma step_keeps w self action l a :
  env_at w l = Some a ->
  exists a', same_but_state a a' /\
             env_at (world_of (GymEnvironment.step self action w)) l = Some a'.
Proof.
  intros Hl. unfold GymEnvironment.step, bind at 1, get_env.
  destruct (heap w !! self) as [[| a0 | | | |]|] eqn:Hself;
    try (exists a; split; [apply same_but_state_refl|exact Hl]).
  unfold bind at 1, get_sim.
  destruct (heap w !! env a0) as [[| | s | | |]|] eqn:Hsim;
    try (exists a; split; [apply same_but_state_refl|exact Hl]).
  destruct (gym_step s action) as [[s' frame] term].
  unfold bind, log, store, alloc, set_heap. cbn [heap world_of].
  destruct (store_frame_keeps w self l a a0 s s' frame (Some term))
    as (a' & Hsame & Hlook); [done..|].
  exists a'. split; [done|]. by apply env_at_Some.
Qed.

End Lifetime.

(** * [render_env] *)

Section Rendering.
Context `{G : Gym} `{T : Trainer}.
Implicit Types (w : World) (l e : loc) (a : EnvAttrs).

Lemma render_returns w l s s' :
  heap w !! l = Some (OSim s) -> gym_render s = (s', None) ->
  render l w = Returns tt (rendered w l s').
Proof.
  intros Hl Hr. unfold render, bind at 1, get_sim. rewrite Hl, Hr.
  reflexivity.
Qed.

Lemma render_raises w l s s' ex :
  heap w !! l = Some (OSim s) -> gym_render s = (s', Some ex) ->
  render l w = Raises ex (rendered w l s').
Proof.
  intros Hl Hr. unfold render, bind at 1, get_sim. rewrite Hl, Hr.
  reflexivity.
Qed.

Lemma render_env_quiet w e a s s' :
  heap w !! e = Some (OEnv a) -> heap w !! env a = Some (OSim s) ->
  gym_render s = (s', None) ->
  render_env e w = Returns tt (rendered w (env a) s').
Proof.
  intros He Hs Hr. unfold render_env, try_except_Exception, bind, get_env.
  rewrite He. by rewrite (render_returns _ _ _ _ Hs Hr).
Qed.

Lemma render_env_caught w e a s s' ex :
  heap w !! e = Some (OEnv a) -> heap w !! env a = Some (OSim s) ->
  gym_render s = (s', Some ex) ->
  issubclass_Exception (exn_class ex) = true ->
  render_env e w = Returns tt (printed (rendered w (env a) s') ex).
Proof.
  intros He Hs Hr Hex. unfold render_env, try_except_Exception, bind, get_env.
  rewrite He. rewrite (render_raises _ _ _ _ _ Hs Hr). by rewrite Hex.
Qed.

Lemma render_env_escapes w e a s s' ex :
  heap w !! e = Some (OEnv a) -> heap w !! env a = Some (OSim s) ->
  gym_render s = (s', Some ex) ->
  issubclass_Exception (exn_class ex) = false ->
  render_env e w = Raises ex (rendered w (env a) s').
Proof.
  intros He Hs Hr Hex. unfold render_env, try_except_Exception, bind, get_env.
  rewrite He. rewrite (render_raises _ _ _ _ _ Hs Hr). by rewrite Hex.
Qed.

(** Whatever escapes [render_env] is not an instance of [Exception]. *)
Lemma render_env_raises_only w e ex w' :
  render_env e w = Raises ex w' ->
  issubclass_Exception (exn_class ex) = false.
Proof.
  unfold render_env, try_except_Exception.
  destruct (bind _ _ w) as [? ?|ex0 w0]; [done|].
  destruct (issubclass_Exception (exn_class ex0)) eqn:Hc.
  - unfold print. done.
  - by intros [= <- <-].
Qed.

Lemma render_env_keeps w e l a :
  env_at w l = Some a ->
  env_at (world_of (render_env e w)) l = Some a.
Proof.
  intros Hl. unfold render_env, try_except_Exception, bind, get_env.
  destruct (heap w !! e) as [[| a0 | | | |]|] eqn:He; try exact Hl.
  unfold render, bind, get_sim.
  destruct (heap w !! env a0) as [[| | s | | |]|] eqn:Hs; try exact Hl.
  assert (env_at (rendered w (env a0) (gym_render s).1) l = Some a) as Hk.
  { apply env_at_Some. unfold rendered. cbn [heap].
    rewrite lookup_insert_ne; [by apply env_at_Some|].
    intros <-. apply env_at_Some in Hl. congruence. }
  destruct (gym_render s) as [s' [ex|]]; cbn [log store set_heap heap
    stdout ticks events raise ret fst] in *; [|exact Hk].
  destruct (issubclass_Exception (exn_class ex)); exact Hk.
Qed.

End Rendering.

(** * Every call leaves the attributes other than the state alone *)

Section EveryCall.
Context `{G : Gym} `{T : Trainer}.

Lemma call_keeps (c : Call) (w : World) (l : loc) (a : EnvAttrs) :
  env_at w l = Some a ->
  exists a', same_but_state a a' /\ env_at (call c w) l = Some a'.
Proof.
  intros Hl. destruct c as [|self|self memo|self|self action|self];
    cbn [call].
  - rewrite new_returns. exists a.
    split; [apply same_but_state_refl | by apply new_keeps].
  - exists a. split; [apply same_but_state_refl | by apply state_keeps].
  - rewrite deepcopy_returns. exists a.
    split; [apply same_but_state_refl | by apply new_keeps].
  - by apply reset_keeps.
  - by apply step_keeps.
  - exists a. split; [apply same_but_state_refl | by apply render_env_keeps].
Qed.

Lemma calls_keep (cs : list Call) (w : World) (l : loc) (a : EnvAttrs) :
  env_at w l = Some a ->
  exists a', same_but_state a a' /\ env_at (calls cs w) l = Some a'.
Proof.
  revert w a. induction cs as [|c cs IH]; intros w a Hl.
  - exists a. split; [apply same_but_state_refl | done].
  - destruct (call_keeps c w l a Hl) as (a1 & H1 & Hl1).
    destruct (IH _ _ Hl1) as (a2 & H2 & Hl2).
    exists a2. split; [by eapply same_but_state_trans | done].
Qed.

End EveryCall.

(** * The playback loop *)

Section Loop.
Context `{G : Gym} `{T : Trainer}.
Implicit Types (w : World) (h : gmap loc Obj) (l e a3c : loc).





(** Storing the frame a reset or a step returned makes the store ready
    (again). *)
Lemma ready_insert_frame h e a3c a s s' t frame term :
  h !! e = Some (OEnv a) -> h !! env a = Some (OSim s) ->
  h !! a3c = Some (OA3C t) ->
  let h1 := <[env a := OSim s']> h in
  let f := fresh (dom h1) in
  ready_heap (<[e := OEnv (with_state a (Some f) term)]>
                (<[f := OArr3 frame]> h1)) e a3c.
Proof.
  intros He Hs Ht h1 f.
  assert (h1 !! f = None) as Hf by apply not_elem_of_dom, is_fresh.
  assert (h1 !! e = Some (OEnv a)) as He1.
  { unfold h1. rewrite lookup_insert_ne; [done|]. intros Heq. congruence. }
  assert (h1 !! env a = Some (OSim s')) as Hs1
    by apply lookup_insert_eq.
  assert (h1 !! a3c = Some (OA3C t)) as Ht1.
  { unfold h1. rewrite lookup_insert_ne; [done|]. intros Heq. congruence. }
  exists (with_state a (Some f) term), s', f, frame, t.
  cbn [env _state with_state]. clearbody h1 f.
  through_inserts; try congruence. done.
Qed.


(** *** The steps of one pass *)

Lemma select_action_returns w a3c obs t o :
  heap w !! a3c = Some (OA3C t) -> heap w !! obs = Some (OArr2 o) ->
  select_action a3c obs w
  = Returns (a3c_select_action t o).2
      (mkWorld (<[a3c := OA3C (a3c_select_action t o).1]> (heap w))
               (stdout w) (ticks w) (events w ++ [EvSelectAction])).
Proof.
  intros Ht Ho. unfold select_action, bind at 1, get_a3c. rewrite Ht.
  unfold bind at 1, get_arr2. rewrite Ho.
  by destruct (a3c_select_action t o) as [t' action].
Qed.

Lemma step_returns w e a s action :
  heap w !! e = Some (OEnv a) -> heap w !! env a = Some (OSim s) ->
  let '(s', frame, term) := gym_step s action in
  let h1 := <[env a := OSim s']> (heap w) in
  let f := fresh (dom h1) in
  GymEnvironment.step e action w
  = Returns tt
      (mkWorld (<[e := OEnv (with_state a (Some f) (Some term))]>
                  (<[f := OArr3 frame]> h1))
               (stdout w) (ticks w) (events w ++ [EvStep action])).
Proof.
  intros He Hs. unfold GymEnvironment.step, bind at 1, get_env. rewrite He.
  unfold bind at 1, get_sim. rewrite Hs.
  by destruct (gym_step s action) as [[s' frame] term].
Qed.

Lemma reset_returns w e a s :
  heap w !! e = Some (OEnv a) -> heap w !! env a = Some (OSim s) ->
  let '(s', frame) := gym_reset s in
  let h1 := <[env a := OSim s']> (heap w) in
  let f := fresh (dom h1) in
  GymEnvironment.reset e w
  = Returns tt
      (mkWorld (<[e := OEnv (with_state a (Some f) (Some false))]>
                  (<[f := OArr3 frame]> h1))
               (stdout w) (ticks w) (events w ++ [EvReset])).
Proof.
  intros He Hs. unfold GymEnvironment.reset, bind at 1, get_env. rewrite He.
  unfold bind at 1, get_sim. rewrite Hs.
  by destruct (gym_reset s) as [s' frame].
Qed.


Lemma loop_events_render : Forall loop_event [EvRender].
Proof. by repeat constructor. Qed.


End Loop.

Section Run.
Context `{G : Gym} `{T : Trainer}.
Variable clock : nat -> Z.
Implicit Types (w : World) (e a3c : loc).



(** *** Before the loop *)

Lemma setup_spec w :
  exists e a3c w',
    setup clock w = Returns (e, a3c, clock (ticks w)) w' /\
    ready w' e a3c /\ ticks w' = S (ticks w) /\
    events w' = events w ++ setup_events.
Proof.
  unfold setup, bind at 1. rewrite new_returns.
  set (e := new_self (heap w)). set (w1 := new_world w).
  assert (heap w1 !! e = Some (OEnv (new_attrs (heap w)))) as He
    by apply new_world_self.
  assert (heap w1 !! new_sim (heap w) = Some (OSim (gym_make "Pong-v0")))
    as Hs by apply new_world_sim.
  unfold bind at 1, A3C_new, bind at 1, log, alloc. cbn [heap set_heap].
  set (a3c := fresh (dom (heap w1))).
  assert (heap w1 !! a3c = None) as Hnew by apply fresh_not_live.
  assert (a3c <> e) as Hne1 by (intros Heq; congruence).
  assert (a3c <> new_sim (heap w)) as Hne2 by (intros Heq; congruence).
  unfold fit, restore, fit_rounds, num_rounds, bind, get_a3c, log, store,
    ret, set_heap.
  cbn [heap stdout ticks events].
  repeat (rewrite lookup_insert_eq; cbn [heap stdout ticks events]).
  rewrite !insert_insert_eq.
  set (t := a3c_restore (a3c_fit a3c_new 1000 false)).
  set (h2 := <[a3c := OA3C t]> (heap w1)).
  assert (h2 !! e = Some (OEnv (new_attrs (heap w)))) as He2
    by (unfold h2; by rewrite lookup_insert_ne).
  assert (h2 !! env (new_attrs (heap w)) = Some (OSim (gym_make "Pong-v0")))
    as Hs2 by (unfold h2; cbn [new_attrs env]; by rewrite lookup_insert_ne).
  match goal with
  | |- context [GymEnvironment.reset e ?w2] =>
      pose proof (reset_returns w2 e _ _ He2 Hs2) as Hreset
  end.
  destruct (gym_reset (gym_make "Pong-v0")) as [s' frame].
  cbv zeta in Hreset. rewrite Hreset. clear Hreset.
  unfold datetime_now. cbn [heap stdout ticks events].
  eexists e, a3c, _. split; [reflexivity|].
  split; [|split; [reflexivity|]].
  - unfold ready. cbn [heap].
    eapply ready_insert_frame; [exact He2|exact Hs2|].
    apply lookup_insert_eq.
  - cbn [events w1 new_world]. unfold setup_events, num_rounds.
    cbn [replicate app]. by rewrite <- !app_assoc.
Qed.

End Run.

(** * The observation accessor *)

(** C1. For every raw frame of the source resolution (210 x 160 pixels,
    three channels) stored in [_state], the [state] accessor returns a
    grid of exactly 80 rows of 80 cells.  And from the moment [PongEnv()]
    has built an instance, through any sequence of calls of its methods
    (on it or on other objects), its [_state_shape] is [(80, 80)]. *)
Theorem state_shape_fixed `{G : Gym} `{T : Trainer}
    (w : World) (self : loc) (raw : Np.ndarray3)
    (w0 : World) (cs : list Call) :
  stored_frame w self = Some raw ->
  has_shape 210 160 3 raw ->
  (exists r w' g,
      PongEnv.state self w = Returns r w' /\
      grid_at w' r = Some g /\
      Np.shape g = (80%nat, 80%nat) /\
      Forall (fun row => length row = 80%nat) g)
  /\
  (PongEnv.new w0 = Returns (new_self (heap w0)) (new_world w0) /\
   state_shape (new_world w0) (new_self (heap w0)) = Some [80; 80] /\
   state_shape (calls cs (new_world w0)) (new_self (heap w0))
   = Some [80; 80]).
Proof.
  intros Hraw Hshape. split.
  - eexists _, _, (preprocess raw). split; [by apply state_returns|].
    destruct (preprocess_shape raw Hshape) as [Hlen Hrows].
    split; [|split; [|done]].
    + unfold grid_at. rewrite heap_set_heap. by rewrite state_heap_result.
    + unfold Np.shape. rewrite Hlen. f_equal.
      destruct (preprocess raw) as [|row g]; [done|].
      by apply Forall_cons in Hrows as [? _].
  - split; [apply new_returns|].
    assert (env_at (new_world w0) (new_self (heap w0))
            = Some (new_attrs (heap w0))) as Hnew
      by apply env_at_Some, new_world_self.
    split; [unfold state_shape; by rewrite Hnew|].
    destruct (calls_keep cs _ _ _ Hnew) as (a' & Hsame & Ha').
    unfold state_shape. rewrite Ha'. cbn [fmap option_fmap option_map].
    by rewrite (same_but_state_shape _ _ Hsame).
Qed.

Lemma state_shape_fixed_witness :
  (exists r w' g,
      PongEnv.state 1%positive (Sample.started None) = Returns r w' /\
      grid_at w' r = Some g /\
      Np.shape g = (80%nat, 80%nat) /\
      Forall (fun row => length row = 80%nat) g)
  /\
  (PongEnv.new (Sample.blank None)
   = Returns (new_self (heap (Sample.blank None))) (new_world (Sample.blank None)) /\
   state_shape (new_world (Sample.blank None)) (new_self (heap (Sample.blank None)))
   = Some [80; 80] /\
   state_shape
     (calls [CallReset 1%positive; CallStep 1%positive 2;
             CallState 1%positive; CallDeepcopy 1%positive ∅]
            (new_world (Sample.blank None)))
     (new_self (heap (Sample.blank None)))
   = Some [80; 80]).
Proof.
  apply (state_shape_fixed (G := Sample.gym None) (T := Sample.trainer)
           (Sample.started None) 1%positive sample_frame).
  - vm_compute. reflexivity.
  - apply (bool_decide_unpack _). vm_compute. exact I.
Defined.

(** C2. For every raw frame stored in [_state], every cell of the grid
    that [state] returns is 0 or 1, and the cell in row [i], column [j]
    is 1 exactly when the channels of the pixel it comes from (row
    [34 + 2i], column [2j] of the frame: the pixel left there by the
    crop and the subsampling) add up to something other than 233. *)
Theorem state_cells `{G : Gym} `{T : Trainer}
    (w : World) (self : loc) (raw : Np.ndarray3) :
  stored_frame w self = Some raw ->
  raw_frame raw ->
  exists r w' g,
    PongEnv.state self w = Returns r w' /\
    grid_at w' r = Some g /\
    (forall i j v, cell g i j = Some v -> v = 0 \/ v = 1) /\
    (forall i j, (i < 80)%nat -> (j < 80)%nat ->
       exists px v,
         cell raw (34 + 2 * i) (2 * j) = Some px /\
         cell g i j = Some v /\
         (v = 1 <-> Described.channel_sum px <> 233)).
Proof.
  intros Hraw Hframe.
  eexists _, _, (preprocess raw). split; [by apply state_returns|].
  split.
  { unfold grid_at. rewrite heap_set_heap. by rewrite state_heap_result. }
  rewrite (preprocess_described raw Hframe). split.
  - intros i j v. unfold cell, Described.observation, Described.threshold.
    rewrite list_lookup_fmap.
    destruct (_ !! i) as [row|]; [|done]. cbn [fmap option_fmap option_map
      mbind option_bind].
    rewrite list_lookup_fmap. destruct (row !! j) as [s|]; [|done].
    intros [= <-]. unfold Described.mark. destruct (s =? 233); auto.
  - intros i j Hi Hj.
    destruct (observation_cell raw i j (proj1 Hframe) Hi Hj)
      as (px & Hpx & Hcell).
    exists px, (Described.mark (Described.channel_sum px)).
    split; [done|]. split; [done|].
    unfold Described.mark.
    destruct (Z.eqb_spec (Described.channel_sum px) 233); split; lia.
Qed.

Lemma state_cells_witness :
  exists r w' g,
    PongEnv.state 1%positive (Sample.started None) = Returns r w' /\
    grid_at w' r = Some g /\
    (forall i j v, cell g i j = Some v -> v = 0 \/ v = 1) /\
    (forall i j, (i < 80)%nat -> (j < 80)%nat ->
       exists px v,
         cell sample_frame (34 + 2 * i) (2 * j) = Some px /\
         cell g i j = Some v /\
         (v = 1 <-> Described.channel_sum px <> 233)).
Proof.
  apply (state_cells (G := Sample.gym None) (T := Sample.trainer)
           (Sample.started None) 1%positive sample_frame).
  - vm_compute. reflexivity.
  - apply (bool_decide_unpack _). vm_compute. exact I.
Defined.

(** C3. For every raw frame stored in [_state], [state] computes its
    result as these steps in this order: crop to rows 34 through 193,
    keep every second row and every second column, add up the colour
    channels, and mark what differs from 233.  Each array expression of
    the accessor is the step the description names, and the array
    returned is their composition. *)
Theorem state_is_described `{G : Gym} `{T : Trainer}
    (w : World) (self : loc) (raw : Np.ndarray3) :
  stored_frame w self = Some raw ->
  raw_frame raw ->
  cropped (Np.array raw) = Described.crop raw /\
  reduced (Described.crop raw) = Described.subsample (Described.crop raw) /\
  grayscale (Described.subsample (Described.crop raw))
  = Described.collapse (Described.subsample (Described.crop raw)) /\
  bw (Described.collapse (Described.subsample (Described.crop raw)))
  = Described.observation raw /\
  exists r w',
    PongEnv.state self w = Returns r w' /\
    grid_at w' r = Some (Described.observation raw).
Proof.
  intros Hraw [Hshape Hu8].
  pose proof (crop_shape _ Hshape) as Hc.
  pose proof (subsample_shape 80 80 3 _ Hc) as Hs.
  split; [apply cropped_described, Hshape|].
  split; [apply reduced_described; [apply Hc|by apply (has_shape_rows 160 160 3)]|].
  split.
  { apply grayscale_described; [by apply (has_shape_pixels 80 80 3)|].
    apply subsample_uint8, crop_uint8; [apply Hshape|done]. }
  split.
  { apply (bw_described _ 80), collapse_rows.
    by apply (has_shape_rows 80 80 3). }
  eexists _, _. split; [by apply state_returns|].
  unfold grid_at. rewrite heap_set_heap, state_heap_result.
  by rewrite preprocess_described.
Qed.

Lemma state_is_described_witness :
  cropped (Np.array sample_frame) = Described.crop sample_frame /\
  reduced (Described.crop sample_frame)
  = Described.subsample (Described.crop sample_frame) /\
  grayscale (Described.subsample (Described.crop sample_frame))
  = Described.collapse (Described.subsample (Described.crop sample_frame)) /\
  bw (Described.collapse (Described.subsample (Described.crop sample_frame)))
  = Described.observation sample_frame /\
  exists r w',
    PongEnv.state 1%positive (Sample.started None) = Returns r w' /\
    grid_at w' r = Some (Described.observation sample_frame).
Proof.
  apply (state_is_described (G := Sample.gym None) (T := Sample.trainer)
           (Sample.started None) 1%positive sample_frame).
  - vm_compute. reflexivity.
  - apply (bool_decide_unpack _). vm_compute. exact I.
Defined.

(** C4. The preprocessing is deterministic: two evaluations of [state]
    on the same stored raw frame, whether of one environment or of two,
    in whatever store, return grids that are equal cell for cell. *)
Theorem state_deterministic `{G : Gym} `{T : Trainer}
    (w1 w2 : World) (self1 self2 : loc) (raw : Np.ndarray3) :
  stored_frame w1 self1 = Some raw ->
  stored_frame w2 self2 = Some raw ->
  exists r1 w1' r2 w2' g1 g2,
    PongEnv.state self1 w1 = Returns r1 w1' /\
    PongEnv.state self2 w2 = Returns r2 w2' /\
    grid_at w1' r1 = Some g1 /\
    grid_at w2' r2 = Some g2 /\
    g1 = g2 /\
    forall i j, cell g1 i j = cell g2 i j.
Proof.
  intros H1 H2.
  eexists _, _, _, _, (preprocess raw), (preprocess raw).
  split; [by apply state_returns|]. split; [by apply state_returns|].
  unfold grid_at. rewrite !heap_set_heap, !state_heap_result. done.
Qed.

Lemma state_deterministic_witness :
  exists r1 w1' r2 w2' g1 g2,
    PongEnv.state 1%positive (Sample.started None) = Returns r1 w1' /\
    PongEnv.state 1%positive
      (calls [CallState 1%positive; CallDeepcopy 1%positive ∅]
             (Sample.started None)) = Returns r2 w2' /\
    grid_at w1' r1 = Some g1 /\
    grid_at w2' r2 = Some g2 /\
    g1 = g2 /\
    forall i j, cell g1 i j = cell g2 i j.
Proof.
  apply (state_deterministic (G := Sample.gym None) (T := Sample.trainer)
           _ _ _ _ sample_frame).
  - vm_compute. reflexivity.
  - vm_compute. reflexivity.
Defined.

(** C9. Reading [state] has no side effect on the environment.  Each
    read allocates its result (an array of zeros, then written through
    the mask) at an identity no object had before, and changes no object
    that existed: the stored frame, the declared shape, the output and
    the clock are as they were.  Two reads in a row therefore return
    distinct arrays with equal contents.  A read that fails (no frame
    stored) changes nothing at all. *)
Theorem state_read_only `{G : Gym} `{T : Trainer}
    (w : World) (self : loc) (raw : Np.ndarray3) :
  stored_frame w self = Some raw ->
  (exists r1 w1 r2 w2 g,
      PongEnv.state self w = Returns r1 w1 /\
      PongEnv.state self w1 = Returns r2 w2 /\
      (r1 ∉ dom (heap w)) /\ (r2 ∉ dom (heap w1)) /\ r1 <> r2 /\
      grid_at w2 r1 = Some g /\ grid_at w2 r2 = Some g /\
      (forall l, l ∈ dom (heap w) ->
                 heap w1 !! l = heap w !! l /\ heap w2 !! l = heap w !! l) /\
      stored_frame w1 self = Some raw /\ stored_frame w2 self = Some raw /\
      state_shape w1 self = state_shape w self /\
      state_shape w2 self = state_shape w self /\
      (stdout w1, ticks w1, events w1) = (stdout w, ticks w, events w) /\
      (stdout w2, ticks w2, events w2) = (stdout w, ticks w, events w))
  /\
  (forall w0 self0, stored_frame w0 self0 = None ->
                    exists ex, PongEnv.state self0 w0 = Raises ex w0).
Proof.
  intros Hraw. split; [|apply state_raises].
  set (w1 := set_heap (state_heap (heap w) raw).2 w).
  set (r1 := (state_heap (heap w) raw).1).
  assert (stored_frame w1 self = Some raw) as Hraw1
    by by apply state_keeps_frame.
  set (w2 := set_heap (state_heap (heap w1) raw).2 w1).
  set (r2 := (state_heap (heap w1) raw).1).
  assert (stored_frame w2 self = Some raw) as Hraw2
    by by apply state_keeps_frame.
  assert (r1 ∈ dom (heap w1)) as Hr1.
  { apply elem_of_dom. unfold w1, r1. rewrite heap_set_heap.
    rewrite state_heap_result. by eexists. }
  assert (forall l, l ∈ dom (heap w) -> l ∈ dom (heap w1)) as Hsub.
  { intros l Hl. unfold w1. rewrite heap_set_heap.
    by apply state_heap_dom. }
  assert (forall l, l ∈ dom (heap w) -> heap w1 !! l = heap w !! l) as Hold1.
  { intros l Hl. unfold w1. rewrite heap_set_heap. by apply state_heap_old. }
  assert (forall l, l ∈ dom (heap w1) -> heap w2 !! l = heap w1 !! l) as Hold2.
  { intros l Hl. unfold w2. rewrite heap_set_heap. by apply state_heap_old. }
  pose proof Hraw as (a & st & Hself & _)%stored_frame_inv.
  assert (self ∈ dom (heap w)) as Hlive by (apply elem_of_dom; by eexists).
  exists r1, w1, r2, w2, (preprocess raw).
  split; [by apply state_returns|]. split; [by apply state_returns|].
  split; [apply state_heap_fresh|]. split; [apply state_heap_fresh|].
  split.
  { intros Heq. apply (state_heap_fresh (heap w1) raw). fold r2.
    by rewrite <- Heq. }
  split.
  { unfold grid_at. rewrite Hold2 by done. unfold w1, r1.
    rewrite heap_set_heap. by rewrite state_heap_result. }
  split.
  { unfold grid_at, w2, r2. rewrite heap_set_heap.
    by rewrite state_heap_result. }
  split.
  { intros l Hl. split; [by apply Hold1|].
    rewrite Hold2 by by apply Hsub. by apply Hold1. }
  split; [done|]. split; [done|].
  split.
  { unfold state_shape, env_at. by rewrite Hold1. }
  split; [|done].
  unfold state_shape, env_at. rewrite Hold2 by by apply Hsub.
  by rewrite Hold1.
Qed.

Lemma state_read_only_witness :
  (exists r1 w1 r2 w2 g,
      PongEnv.state 1%positive (Sample.started None) = Returns r1 w1 /\
      PongEnv.state 1%positive w1 = Returns r2 w2 /\
      (r1 ∉ dom (heap (Sample.started None))) /\
      (r2 ∉ dom (heap w1)) /\ r1 <> r2 /\
      grid_at w2 r1 = Some g /\ grid_at w2 r2 = Some g /\
      (forall l, l ∈ dom (heap (Sample.started None)) ->
                 heap w1 !! l = heap (Sample.started None) !! l /\
                 heap w2 !! l = heap (Sample.started None) !! l) /\
      stored_frame w1 1%positive = Some sample_frame /\
      stored_frame w2 1%positive = Some sample_frame /\
      state_shape w1 1%positive = state_shape (Sample.started None) 1%positive /\
      state_shape w2 1%positive = state_shape (Sample.started None) 1%positive /\
      (stdout w1, ticks w1, events w1)
      = (stdout (Sample.started None), ticks (Sample.started None),
         events (Sample.started None)) /\
      (stdout w2, ticks w2, events w2)
      = (stdout (Sample.started None), ticks (Sample.started None),
         events (Sample.started None)))
  /\
  (forall (w0 : @World (Sample.gym None) Sample.trainer) self0,
      stored_frame w0 self0 = None ->
      exists ex, PongEnv.state self0 w0 = Raises ex w0).
Proof.
  apply (state_read_only (G := Sample.gym None) (T := Sample.trainer)
           (Sample.started None) 1%positive sample_frame).
  vm_compute. reflexivity.
Defined.

(** * Duplication *)

(** C5. Duplicating an instance through [__deepcopy__] gives exactly
    what [PongEnv()] gives: a newly constructed instance whose
    [_state_shape] is [(80, 80)].  The copy and everything it refers to
    are objects that did not exist before the call, and no object that
    existed is changed; so the copy and the original have no object in
    common. *)
Theorem deepcopy_fresh `{G : Gym} `{T : Trainer}
    (w : World) (self : loc) (a : EnvAttrs) (memo : gmap loc loc) :
  env_at w self = Some a ->
  owned w self ⊆ dom (heap w) ->
  exists copy w',
    PongEnv.__deepcopy__ self memo w = Returns copy w' /\
    PongEnv.new w = Returns copy w' /\
    state_shape w' copy = Some [80; 80] /\
    copy ∈ owned w' copy /\
    owned w' copy ## dom (heap w) /\
    (forall l, l ∈ dom (heap w) -> heap w' !! l = heap w !! l) /\
    owned w' self = owned w self /\
    owned w' copy ## owned w' self.
Proof.
  intros Hself Hlive.
  exists (new_self (heap w)), (new_world w).
  split; [apply deepcopy_returns|]. split; [apply new_returns|].
  assert (owned (new_world w) (new_self (heap w)) ## dom (heap w)) as Hdisj.
  { rewrite new_world_owned.
    pose proof (new_self_fresh (heap w)). pose proof (new_sim_fresh (heap w)).
    set_solver. }
  assert (owned (new_world w) self = owned w self) as Hsame.
  { unfold owned. by rewrite (new_keeps _ _ _ Hself), Hself. }
  split.
  { unfold state_shape, env_at. by rewrite new_world_self. }
  split; [rewrite new_world_owned; set_solver|].
  split; [done|]. split; [intros l Hl; by apply new_world_old|].
  split; [done|]. rewrite Hsame. set_solver.
Qed.

Lemma deepcopy_fresh_witness :
  exists copy w',
    PongEnv.__deepcopy__ 1%positive ∅ (Sample.started None)
    = Returns copy w' /\
    PongEnv.new (Sample.started None) = Returns copy w' /\
    state_shape w' copy = Some [80; 80] /\
    copy ∈ owned w' copy /\
    owned w' copy ## dom (heap (Sample.started None)) /\
    (forall l, l ∈ dom (heap (Sample.started None)) ->
               heap w' !! l = heap (Sample.started None) !! l) /\
    owned w' 1%positive = owned (Sample.started None) 1%positive /\
    owned w' copy ## owned w' 1%positive.
Proof.
  apply (deepcopy_fresh (G := Sample.gym None) (T := Sample.trainer)
           (Sample.started None) 1%positive
           (mkEnvAttrs 2 "Pong-v0" (Some 3%positive) (Some false) [80; 80] 6)).
  - vm_compute. reflexivity.
  - apply (bool_decide_unpack _). vm_compute. exact I.
Defined.



(** * Rendering *)

(** C6, as the claim states it, fails: [except Exception] does not catch
    what lies outside [Exception].  When the display backend raises
    [KeyboardInterrupt], [render_env] neither prints it nor returns; the
    exception propagates to the caller. *)
Lemma render_env_propagates_interrupt :
  gym_render (Gym := Sample.gym (Some Sample.interrupt)) O
  = (O, Some Sample.interrupt) /\
  issubclass_Exception (exn_class Sample.interrupt) = false /\
  render_env (G := Sample.gym (Some Sample.interrupt))
             (T := Sample.trainer) 1%positive
             (Sample.started (Some Sample.interrupt))
  = Raises Sample.interrupt
      (rendered (Sample.started (Some Sample.interrupt)) 2%positive O) /\
  stdout (rendered (Sample.started (Some Sample.interrupt)) 2%positive O)
  = stdout (Sample.started (Some Sample.interrupt)).
Proof.
  split; [reflexivity|]. split; [reflexivity|].
  split; vm_compute; reflexivity.
Qed.

(** C6, amended.  What [render_env] does with an exception raised by
    [env.env.render()] goes by the exception's class.  An instance of
    [Exception] is caught and printed, and [render_env] returns normally
    (the [print(e)] of the handler is taken to succeed).  An exception
    that is not an instance of [Exception] is not caught: nothing is
    printed and it propagates out of [render_env]. *)
Theorem render_env_catches_Exception `{G : Gym} `{T : Trainer}
    (w : World) (e : loc) (a : EnvAttrs) (s s' : Sim) (ex : Exn) :
  env_at w e = Some a ->
  sim_at w (env a) = Some s ->
  gym_render s = (s', Some ex) ->
  (issubclass_Exception (exn_class ex) = true ->
   exists w',
     render_env e w = Returns tt w' /\
     stdout w' = stdout w ++ [exn_str ex])
  /\
  (issubclass_Exception (exn_class ex) = false ->
   exists w',
     render_env e w = Raises ex w' /\
     stdout w' = stdout w).
Proof.
  intros He%env_at_Some Hs Hr.
  assert (heap w !! env a = Some (OSim s)) as Hs'.
  { unfold sim_at in Hs.
    by destruct (heap w !! env a) as [[]|]; simplify_eq. }
  split; intros Hex.
  - eexists. split; [by eapply render_env_caught|done].
  - eexists. split; [by eapply render_env_escapes|done].
Qed.

Lemma render_env_catches_Exception_witness :
  (exists w',
      render_env (G := Sample.gym (Some Sample.no_display))
                 (T := Sample.trainer) 1%positive
                 (Sample.started (Some Sample.no_display))
      = Returns tt w' /\
      stdout w'
      = stdout (Sample.started (Some Sample.no_display))
          ++ [exn_str Sample.no_display])
  /\
  (exists w',
      render_env (G := Sample.gym (Some Sample.interrupt))
                 (T := Sample.trainer) 1%positive
                 (Sample.started (Some Sample.interrupt))
      = Raises Sample.interrupt w' /\
      stdout w' = stdout (Sample.started (Some Sample.interrupt))).
Proof.
  split.
  - apply (render_env_catches_Exception
             (G := Sample.gym (Some Sample.no_display)) (T := Sample.trainer)
             (Sample.started (Some Sample.no_display)) 1%positive
             (mkEnvAttrs 2 "Pong-v0" (Some 3%positive) (Some false) [80; 80] 6)
             O O Sample.no_display).
    + vm_compute. reflexivity.
    + vm_compute. reflexivity.
    + reflexivity.
    + reflexivity.
  - apply (render_env_catches_Exception
             (G := Sample.gym (Some Sample.interrupt)) (T := Sample.trainer)
             (Sample.started (Some Sample.interrupt)) 1%positive
             (mkEnvAttrs 2 "Pong-v0" (Some 3%positive) (Some false) [80; 80] 6)
             O O Sample.interrupt).
    + vm_compute. reflexivity.
    + vm_compute. reflexivity.
    + reflexivity.
    + reflexivity.
Defined.

(** * The policy *)

(** C7. For every state input, [create_layers] returns a mapping whose
    keys are exactly ["action_prob"] and ["value"]: the first is bound
    to a dense layer with softmax activation and as many outputs as the
    environment has actions, the second to a dense layer with a single
    output. *)
Theorem create_layers_outputs `{G : Gym} `{T : Trainer}
    (w : World) (e : loc) (a : EnvAttrs) (state : list Layer) :
  env_at w e = Some a ->
  exists m,
    PongPolicy.create_layers e state w = Returns m w /\
    dom m = {["action_prob"; "value"]} /\
    m !! "action_prob"
    = Some (Dense (_n_actions a) (Some softmax) [PongPolicy.trunk state]) /\
    m !! "value" = Some (Dense 1 None [PongPolicy.trunk state]).
Proof.
  intros He%env_at_Some. eexists. split.
  - unfold PongPolicy.create_layers, GymEnvironment.n_actions, bind, get_env.
    rewrite He. reflexivity.
  - split; [|split].
    + rewrite !dom_insert_L, dom_empty_L. set_solver.
    + rewrite lookup_insert_ne by done. apply lookup_insert_eq.
    + apply lookup_insert_eq.
Qed.

Lemma create_layers_outputs_witness :
  exists m,
    PongPolicy.create_layers 1%positive [Feature [80; 80]]
      (Sample.started None) = Returns m (Sample.started None) /\
    dom m = {["action_prob"; "value"]} /\
    m !! "action_prob"
    = Some (Dense 6 (Some softmax) [PongPolicy.trunk [Feature [80; 80]]]) /\
    m !! "value" = Some (Dense 1 None [PongPolicy.trunk [Feature [80; 80]]]).
Proof.
  apply (create_layers_outputs (G := Sample.gym None) (T := Sample.trainer)
           (Sample.started None) 1%positive
           (mkEnvAttrs 2 "Pong-v0" (Some 3%positive) (Some false) [80; 80] 6)).
  vm_compute. reflexivity.
Defined.

(** * The clock *)

(** Read once a minute, the clock lets the loop make one pass: the
    readings are the start, one minute (a pass), two minutes (the loop
    ends). *)
Example one_pass_a_minute :
  match notebook (G := Sample.gym None) (T := Sample.trainer)
                 Sample.minutes 2 (Sample.blank None) with
  | Some (Returns passes w) =>
      passes = 1%nat /\ ticks w = 3%nat /\
      events w = setup_events
                   ++ [EvNow; EvRender; EvSelectAction; EvStep 0; EvNow]
  | _ => False
  end.
Proof. vm_compute. done. Qed.







(** * The accessor on frames of any resolution *)

Section AnyAxis.
Context {A : Type}.
Implicit Types l : list A.

Lemma every_second_half l :
  length (Described.every_second l) = Nat.div2 (S (length l)).
Proof.
  assert (forall n l, (length l <= n)%nat ->
            length (Described.every_second l) = Nat.div2 (S (length l))) as H.
  { induction n as [|n IH]; intros [|x [|y k]] Hk; simpl in *; try done; try lia.
    f_equal. apply IH. lia. }
  by apply (H (length l)).
Qed.

Lemma stride_go_Forall (P : A -> Prop) (step skip : nat) l :
  Forall P l -> Forall P (Np.stride_go step skip l).
Proof.
  intros H. revert skip. induction H as [|x l Hx Hl IH]; intros skip; [done|].
  destruct skip; simpl; [constructor|]; auto.
Qed.

Lemma slice_Forall (P : A -> Prop) start stop step l :
  Forall P l -> Forall P (Np.slice start stop step l).
Proof.
  intros H. unfold Np.slice, Np.stride.
  by apply stride_go_Forall, Forall_take, Forall_drop.
Qed.

(** [l[0:-1:2]] has half the length of [l], rounded down. *)
Lemma slice_half_length l :
  length (Np.slice (Some 0) (Some (-1)) 2 l) = (length l / 2)%nat.
Proof.
  rewrite <- Nat.div2_div.
  unfold Np.slice, Np.slice_bound; simpl default.
  destruct (Z.ltb_spec 0 0); [lia|].
  destruct (Z.ltb_spec (-1) 0); [|lia].
  rewrite (Z.min_l 0) by lia. rewrite Z.sub_0_r.
  change (drop (Z.to_nat 0) l) with l.
  rewrite stride_two, every_second_half, length_take.
  destruct (length l) as [|n]; [done|].
  replace (Z.to_nat (0 `max` (-1 + Z.of_nat (S n)))) with n by lia.
  by rewrite Nat.min_l by lia.
Qed.

(** [l[34:194]] keeps what the axis has of positions 34 to 193. *)
Lemma slice_play_rows l :
  length (Np.slice (Some 34) (Some 194) 1 l) = play_rows (length l).
Proof.
  unfold Np.slice, Np.slice_bound, play_rows; simpl default.
  destruct (Z.ltb_spec 34 0); [lia|].
  destruct (Z.ltb_spec 194 0); [lia|].
  rewrite stride_one, length_take, length_drop. lia.
Qed.

End AnyAxis.

Lemma cropped_slice (a : Np.ndarray3) :
  cropped a = Np.slice (Some 34) (Some 194) 1 a.
Proof.
  unfold cropped.
  rewrite <- (list_fmap_id (Np.slice (Some 34) (Some 194) 1 a)) at 2.
  apply list_fmap_ext. intros _ row _.
  rewrite full_id. rewrite <- (list_fmap_id row) at 2.
  apply list_fmap_ext. intros _ px _. apply full_id.
Qed.

Lemma bw_length (g : Np.ndarray2) (cols : nat) :
  rectangular cols g ->
  length (bw g) = length g /\ rectangular cols (bw g).
Proof.
  intros Hg. rewrite (bw_described g cols Hg). unfold Described.threshold.
  split; [by rewrite length_fmap|].
  apply Forall_fmap. eapply Forall_impl; [exact Hg|].
  intros row Hrow. simpl. by rewrite length_fmap.
Qed.

(** The shape of the accessor's array for a frame of any height and
    width. *)
Lemma preprocess_any_shape (raw : Np.ndarray3) (cols : nat) :
  rectangular cols raw ->
  length (preprocess raw) = (play_rows (length raw) / 2)%nat /\
  rectangular (cols / 2) (preprocess raw).
Proof.
  intros Hraw. unfold preprocess, Np.array. rewrite cropped_slice.
  set (c := Np.slice (Some 34) (Some 194) 1 raw).
  assert (rectangular cols c) as Hc by by apply slice_Forall.
  assert (length c = play_rows (length raw)) as Hlen by apply slice_play_rows.
  assert (rectangular (cols / 2) (grayscale (reduced c))) as Hg.
  { unfold grayscale, Np.sum_axis2, reduced. apply Forall_fmap, Forall_fmap.
    apply slice_Forall. eapply Forall_impl; [exact Hc|].
    intros row Hrow. simpl. by rewrite length_fmap, slice_half_length, Hrow. }
  destruct (bw_length _ _ Hg) as [-> Hbw]. split; [|done].
  unfold grayscale, Np.sum_axis2, reduced.
  by rewrite !length_fmap, slice_half_length, Hlen.
Qed.

(** X1. For a stored frame of [H] rows and [W] columns, the accessor
    returns a grid with half as many rows as the frame has in the play
    area (rows 34 to 193), rounded down.  If the frame has 36 rows or
    more the grid has a row, and its shape is that number of rows by
    half the frame's columns, rounded down.  If the frame has fewer
    rows the grid has no row at all. *)
Theorem state_any_resolution `{G : Gym} `{T : Trainer}
    (w : World) (self : loc) (raw : Np.ndarray3) (cols : nat) :
  stored_frame w self = Some raw ->
  rectangular cols raw ->
  exists r w' g,
    PongEnv.state self w = Returns r w' /\
    grid_at w' r = Some g /\
    length g = ((Nat.min (length raw) 194 - 34) / 2)%nat /\
    rectangular (cols / 2) g /\
    ((36 <= length raw)%nat ->
     Np.shape g
     = (((Nat.min (length raw) 194 - 34) / 2)%nat, (cols / 2)%nat)) /\
    ((length raw < 36)%nat -> g = []).
Proof.
  intros Hraw Hrect. eexists _, _, (preprocess raw).
  split; [by apply state_returns|]. split.
  { unfold grid_at. rewrite heap_set_heap. by rewrite state_heap_result. }
  destruct (preprocess_any_shape raw cols Hrect) as [Hlen Hcols].
  unfold play_rows in Hlen.
  split; [exact Hlen|]. split; [exact Hcols|]. split.
  - intros Htall. unfold Np.shape.
    destruct (preprocess raw) as [|row g].
    + exfalso. cbn [length] in Hlen. symmetry in Hlen.
      apply Nat.div_small_iff in Hlen; lia.
    + apply Forall_cons in Hcols as [Hrow _]. by rewrite Hlen, Hrow.
  - intros Hshort. apply nil_length_inv. rewrite Hlen.
    apply Nat.div_small. lia.
Qed.

Lemma state_any_resolution_witness :
  (exists r w' g,
      PongEnv.state 1%positive
        (Other.started Other.narrow_frame Other.narrow_frame)
      = Returns r w' /\
      grid_at w' r = Some g /\
      Np.shape g = (33%nat, 3%nat))
  /\
  (exists r w' g,
      PongEnv.state 1%positive
        (Other.started Other.short_frame Other.short_frame)
      = Returns r w' /\
      grid_at w' r = Some g /\
      g = []).
Proof.
  split.
  - destruct (state_any_resolution
                (G := Other.gym Other.narrow_frame Other.narrow_frame)
                (T := Sample.trainer)
                (Other.started Other.narrow_frame Other.narrow_frame)
                1%positive Other.narrow_frame 7)
      as (r & w' & g & Hrun & Hg & _ & _ & Hshape & _).
    + vm_compute. reflexivity.
    + apply (bool_decide_unpack _). vm_compute. exact I.
    + exists r, w', g. split; [exact Hrun|]. split; [exact Hg|].
      apply Hshape. vm_compute. lia.
  - destruct (state_any_resolution
                (G := Other.gym Other.short_frame Other.short_frame)
                (T := Sample.trainer)
                (Other.started Other.short_frame Other.short_frame)
                1%positive Other.short_frame 7)
      as (r & w' & g & Hrun & Hg & _ & _ & _ & Hnone).
    + vm_compute. reflexivity.
    + apply (bool_decide_unpack _). vm_compute. exact I.
    + exists r, w', g. split; [exact Hrun|]. split; [exact Hg|].
      apply Hnone. vm_compute. lia.
Defined.

Lemma half_play_rows_80 (rows : nat) :
  Nat.div2 (play_rows rows) = 80%nat <-> (194 <= rows)%nat.
Proof.
  unfold play_rows. split.
  - intros H. destruct (decide (194 <= rows)%nat); [done|].
    rewrite Nat.min_l in H by lia.
    pose proof (Nat.div2_odd (rows - 34)) as Hodd. rewrite H in Hodd.
    destruct (Nat.odd (rows - 34)); simpl in Hodd; lia.
  - intros H. by rewrite Nat.min_r by lia.
Qed.

Lemma half_cols_80 (cols : nat) :
  (cols / 2)%nat = 80%nat <-> cols = 160%nat \/ cols = 161%nat.
Proof.
  rewrite <- Nat.div2_div. split.
  - intros H. pose proof (Nat.div2_odd cols) as Hodd. rewrite H in Hodd.
    destruct (Nat.odd cols); simpl in Hodd; lia.
  - by intros [-> | ->].
Qed.

(** X2. The grid the accessor returns has the declared shape (80, 80)
    exactly when the stored frame has at least 194 rows and 160 or 161
    columns. *)
Theorem state_matches_declared_shape `{G : Gym} `{T : Trainer}
    (w : World) (self : loc) (raw : Np.ndarray3) (cols : nat) :
  stored_frame w self = Some raw ->
  rectangular cols raw ->
  exists r w' g,
    PongEnv.state self w = Returns r w' /\
    grid_at w' r = Some g /\
    (Np.shape g = (80%nat, 80%nat) <->
     (194 <= length raw)%nat /\ (cols = 160%nat \/ cols = 161%nat)).
Proof.
  intros Hraw Hrect. eexists _, _, (preprocess raw).
  split; [by apply state_returns|]. split.
  { unfold grid_at. rewrite heap_set_heap. by rewrite state_heap_result. }
  destruct (preprocess_any_shape raw cols Hrect) as [Hlen Hcols].
  rewrite <- Nat.div2_div in Hlen. unfold Np.shape.
  pose proof (half_play_rows_80 (length raw)) as Hrows.
  pose proof (half_cols_80 cols) as Hhalf.
  destruct (preprocess raw) as [|row g].
  - cbn [length] in Hlen. rewrite <- Hlen in Hrows. split; [done|].
    intros [H194 _]. apply Hrows in H194. done.
  - apply Forall_cons in Hcols as [Hrow _]. rewrite Hlen, Hrow. split.
    + intros [= Hr Hc]. split; [by apply Hrows|by apply Hhalf].
    + intros [Hr Hc]. apply Hrows in Hr. apply Hhalf in Hc. congruence.
Qed.

Lemma state_matches_declared_shape_witness :
  exists r w' g,
    PongEnv.state 1%positive (Other.started Other.narrow_frame Other.narrow_frame)
    = Returns r w' /\
    grid_at w' r = Some g /\
    (Np.shape g = (80%nat, 80%nat) <->
     (194 <= length Other.narrow_frame)%nat /\
     (7%nat = 160%nat \/ 7%nat = 161%nat)).
Proof.
  apply (state_matches_declared_shape (G := Other.gym Other.narrow_frame Other.narrow_frame)
           (T := Sample.trainer) (Other.started Other.narrow_frame Other.narrow_frame)
           1%positive Other.narrow_frame 7).
  - vm_compute. reflexivity.
  - apply (bool_decide_unpack _). vm_compute. exact I.
Defined.

(** * What the observation depends on *)

(** Two grids of the same shape with the same cells are the same. *)
Lemma cells_ext {A} (g1 g2 : list (list A)) (n m : nat) :
  length g1 = n -> length g2 = n ->
  rectangular m g1 -> rectangular m g2 ->
  (forall i j, (i < n)%nat -> (j < m)%nat -> cell g1 i j = cell g2 i j) ->
  g1 = g2.
Proof.
  intros H1 H2 Hr1 Hr2 Hcells.
  apply (list_eq_same_length _ _ n); [done|done|].
  intros i row1 row2 Hi Hrow1 Hrow2.
  apply (list_eq_same_length _ _ m).
  - exact (Forall_lookup_1 _ _ _ _ Hr2 Hrow2).
  - exact (Forall_lookup_1 _ _ _ _ Hr1 Hrow1).
  - intros j x y Hj Hx Hy. specialize (Hcells i j Hi Hj).
    unfold cell in Hcells. rewrite Hrow1, Hrow2 in Hcells. simpl in Hcells.
    congruence.
Qed.

(** X3. The observation depends on the frame only through one bit per
    sampled pixel: whether the channels of the pixel at row [34 + 2i],
    column [2j] add up to 233.  Frames that agree on that for every
    [i, j < 80] give the same grid, whatever they show in the rows above
    34 and below 193, in the odd rows and columns, and however the
    colours of the sampled pixels differ. *)
Theorem state_reads_sampled_sums `{G : Gym} `{T : Trainer}
    (w1 w2 : World) (self1 self2 : loc) (raw1 raw2 : Np.ndarray3) :
  stored_frame w1 self1 = Some raw1 ->
  stored_frame w2 self2 = Some raw2 ->
  raw_frame raw1 -> raw_frame raw2 ->
  (forall i j s1 s2, (i < 80)%nat -> (j < 80)%nat ->
     sampled_sum raw1 i j = Some s1 -> sampled_sum raw2 i j = Some s2 ->
     (s1 = 233 <-> s2 = 233)) ->
  exists r1 w1' r2 w2' g,
    PongEnv.state self1 w1 = Returns r1 w1' /\
    PongEnv.state self2 w2 = Returns r2 w2' /\
    grid_at w1' r1 = Some g /\ grid_at w2' r2 = Some g.
Proof.
  intros H1 H2 Hf1 Hf2 Hsame.
  assert (preprocess raw1 = preprocess raw2) as Heq.
  { destruct (preprocess_shape raw1 (proj1 Hf1)) as [Hl1 Hr1].
    destruct (preprocess_shape raw2 (proj1 Hf2)) as [Hl2 Hr2].
    apply (cells_ext _ _ 80 80); [done..|].
    intros i j Hi Hj.
    rewrite (preprocess_described raw1 Hf1), (preprocess_described raw2 Hf2).
    destruct (observation_cell raw1 i j (proj1 Hf1) Hi Hj) as (px1 & Hpx1 & ->).
    destruct (observation_cell raw2 i j (proj1 Hf2) Hi Hj) as (px2 & Hpx2 & ->).
    f_equal. unfold Described.mark.
    specialize (Hsame i j (Described.channel_sum px1)
                  (Described.channel_sum px2) Hi Hj).
    unfold sampled_sum in Hsame. rewrite Hpx1, Hpx2 in Hsame.
    specialize (Hsame eq_refl eq_refl).
    destruct (Z.eqb_spec (Described.channel_sum px1) 233),
             (Z.eqb_spec (Described.channel_sum px2) 233); tauto. }
  eexists _, _, _, _, (preprocess raw1).
  split; [by apply state_returns|]. split; [by apply state_returns|].
  unfold grid_at. rewrite !heap_set_heap, !state_heap_result.
  by rewrite Heq.
Qed.

Lemma state_reads_sampled_sums_witness :
  exists r1 w1' r2 w2' g,
    PongEnv.state 1%positive (Other.started sample_frame Other.rescored_frame)
    = Returns r1 w1' /\
    PongEnv.state 1%positive (Other.stepped sample_frame Other.rescored_frame)
    = Returns r2 w2' /\
    grid_at w1' r1 = Some g /\ grid_at w2' r2 = Some g.
Proof.
  apply (state_reads_sampled_sums
           (G := Other.gym sample_frame Other.rescored_frame)
           (T := Sample.trainer)
           (Other.started sample_frame Other.rescored_frame)
           (Other.stepped sample_frame Other.rescored_frame)
           1%positive 1%positive sample_frame Other.rescored_frame).
  - vm_compute. reflexivity.
  - vm_compute. reflexivity.
  - apply (bool_decide_unpack _). vm_compute. exact I.
  - apply (bool_decide_unpack _). vm_compute. exact I.
  - intros i j s1 s2 Hi Hj H1 H2.
    assert (sampled_sum Other.rescored_frame i j = sampled_sum sample_frame i j)
      as Heq.
    { unfold sampled_sum, cell, Other.rescored_frame.
      change (34 + 2 * i)%nat with (S (33 + 2 * i)).
      by rewrite lookup_cons, lookup_tail. }
    rewrite Heq, H1 in H2. by injection H2 as ->.
Defined.

(** * Reading without a frame *)

(** X4. An instance whose [_state] is [None], as it is before the first
    [reset], cannot be observed: [state] raises [IndexError] and changes
    nothing.  In general [state] returns exactly when a frame is stored,
    and what it raises otherwise is an instance of [Exception]. *)
Theorem state_without_frame `{G : Gym} `{T : Trainer}
    (w : World) (self : loc) (a : EnvAttrs) :
  env_at w self = Some a ->
  _state a = None ->
  PongEnv.state self w = Raises (IndexError "too many indices for array") w /\
  (forall w0 self0,
      (exists r w', PongEnv.state self0 w0 = Returns r w')
      <-> is_Some (stored_frame w0 self0)) /\
  (forall w0 self0 ex w',
      PongEnv.state self0 w0 = Raises ex w' ->
      w' = w0 /\ issubclass_Exception (exn_class ex) = true).
Proof.
  intros Ha%env_at_Some Hst. split; [|split].
  - unfold PongEnv.state, bind, get_env. by rewrite Ha, Hst.
  - intros w0 self0. split.
    + intros (r & w' & Hret).
      destruct (stored_frame w0 self0) as [raw|] eqn:Hraw; [by eexists|].
      destruct (state_raises _ _ Hraw) as [ex Hex]. congruence.
    + intros [raw Hraw]. eexists _, _. by apply state_returns.
  - intros w0 self0 ex w'.
    destruct (stored_frame w0 self0) as [raw|] eqn:Hraw.
    { by rewrite (state_returns _ _ _ Hraw). }
    unfold stored_frame, env_at, frame_at in Hraw.
    unfold PongEnv.state, bind at 1, get_env.
    destruct (heap w0 !! self0) as [[| a0 | | | |]|];
      try (by intros [= <- <-]).
    simpl in Hraw. destruct (_state a0) as [st|]; [|by intros [= <- <-]].
    simpl in Hraw. unfold bind at 1, get_arr3 at 1.
    destruct (heap w0 !! st) as [[]|]; try done; by intros [= <- <-].
Qed.

Lemma state_without_frame_witness :
  PongEnv.state 1%positive (Other.made Other.narrow_frame Other.narrow_frame)
  = Raises (IndexError "too many indices for array")
           (Other.made Other.narrow_frame Other.narrow_frame) /\
  (forall (w0 : @World (Other.gym Other.narrow_frame Other.narrow_frame) Sample.trainer)
          self0,
      (exists r w', PongEnv.state self0 w0 = Returns r w')
      <-> is_Some (stored_frame w0 self0)) /\
  (forall (w0 : @World (Other.gym Other.narrow_frame Other.narrow_frame) Sample.trainer)
          self0 ex w',
      PongEnv.state self0 w0 = Raises ex w' ->
      w' = w0 /\ issubclass_Exception (exn_class ex) = true).
Proof.
  apply (state_without_frame (G := Other.gym Other.narrow_frame Other.narrow_frame)
           (T := Sample.trainer) (Other.made Other.narrow_frame Other.narrow_frame)
           1%positive (mkEnvAttrs 2 "Pong-v0" None None [80; 80] 6)).
  - vm_compute. reflexivity.
  - reflexivity.
Defined.

(** * What [render_env] touches *)

Section RenderFootprint.
Context `{G : Gym} `{T : Trainer}.
Implicit Types (w : World) (e l : loc).

(** The worlds [render_env] can end in. *)
Lemma render_env_cases w e :
  world_of (render_env e w) = printed w (AttributeError "not an environment")
  \/ world_of (render_env e w)
     = printed w (AttributeError "not a Gym environment")
  \/ exists a s,
       heap w !! e = Some (OEnv a) /\ heap w !! env a = Some (OSim s) /\
       (world_of (render_env e w) = rendered w (env a) (gym_render s).1 \/
        exists ex, world_of (render_env e w)
                   = printed (rendered w (env a) (gym_render s).1) ex).
Proof.
  unfold render_env, try_except_Exception, bind, get_env.
  destruct (heap w !! e) as [[| a | | | |]|] eqn:He; try (by left).
  unfold render, bind, get_sim.
  destruct (heap w !! env a) as [[| | s | | |]|] eqn:Hs;
    try (by right; left).
  right; right. exists a, s. split; [done|]. split; [done|].
  destruct (gym_render s) as [s' [ex|]]; [|by left].
  cbn [log store raise set_heap heap stdout ticks events fst].
  destruct (issubclass_Exception (exn_class ex)); [right; by exists ex|by left].
Qed.

End RenderFootprint.

(** X5. [render_env] touches nothing but the Gym environment of the
    instance it is given and the output: it prints at most one line, it
    creates and deletes no object, and every object other than that Gym
    environment is as before; in particular no instance's attributes and
    no stored frame change. *)
Theorem render_env_footprint `{G : Gym} `{T : Trainer}
    (w : World) (e : loc) :
  ticks (world_of (render_env e w)) = ticks w /\
  (stdout (world_of (render_env e w)) = stdout w \/
   exists line, stdout (world_of (render_env e w)) = stdout w ++ [line]) /\
  dom (heap (world_of (render_env e w))) = dom (heap w) /\
  (forall l, (forall a, env_at w e = Some a -> l <> env a) ->
             heap (world_of (render_env e w)) !! l = heap w !! l) /\
  (forall l, env_at (world_of (render_env e w)) l = env_at w l) /\
  (forall l, stored_frame (world_of (render_env e w)) l = stored_frame w l).
Proof.
  assert (forall a s s',
            heap w !! env a = Some (OSim s) ->
            dom (<[env a := OSim s']> (heap w)) = dom (heap w)) as Hdom.
  { intros a s s' Hs. rewrite dom_insert_L.
    assert (env a ∈ dom (heap w)) by (apply elem_of_dom; by eexists).
    set_solver. }
  assert (forall a s s' l,
            heap w !! env a = Some (OSim s) ->
            env_at (rendered w (env a) s') l = env_at w l /\
            frame_at (rendered w (env a) s') l = frame_at w l) as Hkind.
  { intros a s s' l Hs. unfold env_at, frame_at, rendered. cbn [heap].
    destruct (decide (env a = l)) as [<-|Hne].
    - by rewrite lookup_insert_eq, Hs.
    - by rewrite lookup_insert_ne. }
  destruct (render_env_cases w e)
    as [-> | [-> | (a & s & He & Hs & [-> | [ex ->]])]].
  - repeat split; eauto.
  - repeat split; eauto.
  - split; [done|]. split; [by left|]. split; [by eapply Hdom|].
    split; [|split].
    + intros l Hl. unfold rendered. cbn [heap].
      rewrite lookup_insert_ne; [done|].
      intros Heq. apply (Hl a); [by apply env_at_Some|done].
    + intros l. by eapply Hkind.
    + intros l. unfold stored_frame.
      rewrite (proj1 (Hkind a s _ l Hs)).
      destruct (env_at w l) as [a0|]; [|done]. simpl.
      destruct (_state a0) as [st|]; [|done]. simpl.
      by eapply Hkind.
  - split; [done|]. split; [right; by eexists|]. split; [by eapply Hdom|].
    split; [|split].
    + intros l Hl. unfold printed, rendered. cbn [heap].
      rewrite lookup_insert_ne; [done|].
      intros Heq. apply (Hl a); [by apply env_at_Some|done].
    + intros l. by eapply Hkind.
    + intros l. unfold stored_frame.
      change (env_at (printed ?w0 ex) l) with (env_at w0 l).
      rewrite (proj1 (Hkind a s _ l Hs)).
      destruct (env_at w l) as [a0|]; [|done]. simpl.
      destruct (_state a0) as [st|]; [|done]. simpl.
      change (frame_at (printed ?w0 ex) st) with (frame_at w0 st).
      by eapply Hkind.
Qed.

(** X6. The attribute lookups of [env.env.render()] are inside the
    [try]: when the argument is not an environment, or its [env] is not
    a Gym environment, [render_env] prints one line for the
    [AttributeError] and returns normally, with nothing rendered and no
    object changed. *)
Theorem render_env_attribute_error `{G : Gym} `{T : Trainer}
    (w : World) (e : loc) :
  (env_at w e = None \/
   exists a, env_at w e = Some a /\ sim_at w (env a) = None) ->
  exists line,
    render_env e w
    = Returns tt (mkWorld (heap w) (stdout w ++ [line]) (ticks w) (events w)).
Proof.
  unfold env_at, sim_at, render_env, try_except_Exception, bind, get_env.
  intros [He | (a & He & Hs)].
  - destruct (heap w !! e) as [[| a | | | |]|]; try done; by eexists.
  - destruct (heap w !! e) as [[| a0 | | | |]|]; try done.
    injection He as ->. unfold render, bind, get_sim.
    destruct (heap w !! env a) as [[| | s | | |]|]; try done; by eexists.
Qed.

Lemma render_env_attribute_error_witness :
  exists line,
    render_env 7%positive (Sample.started None)
    = Returns tt (mkWorld (heap (Sample.started None))
                          (stdout (Sample.started None) ++ [line])
                          (ticks (Sample.started None))
                          (events (Sample.started None))).
Proof.
  apply (render_env_attribute_error (G := Sample.gym None)
           (T := Sample.trainer) (Sample.started None) 7%positive).
  left. vm_compute. reflexivity.
Defined.

(** * The copy and the original *)

Section Apart.
Context `{G : Gym} `{T : Trainer}.
Implicit Types (w : World) (t o l : loc) (a : EnvAttrs).

Lemma owned_env_at w w' t :
  env_at w' t = env_at w t -> owned w' t = owned w t.
Proof. unfold owned. by intros ->. Qed.

Lemma footprint_same_heap w w' t :
  heap w' = heap w -> footprint w w' t.
Proof.
  intros Hh. unfold footprint, owned, env_at. rewrite Hh.
  split; [done|]. split; [done|]. apply union_subseteq_l.
Qed.

Lemma new_world_dom w :
  dom (heap (new_world w))
  = {[new_self (heap w)]} ∪ ({[new_sim (heap w)]} ∪ dom (heap w)).
Proof.
  unfold new_world. cbn [heap]. rewrite !dom_insert_L.
  set (x := new_self (heap w)). set (y := new_sim (heap w)).
  clearbody x y. set_solver.
Qed.

Lemma footprint_new w t : footprint w (new_world w) t.
Proof.
  pose proof (new_self_fresh (heap w)) as Hself.
  pose proof (new_sim_fresh (heap w)) as Hsim.
  split; [rewrite new_world_dom; set_solver|].
  split; [intros l Hl _; by apply new_world_old|].
  destruct (env_at w t) as [a|] eqn:Ht.
  - rewrite (owned_env_at w (new_world w) t)
      by (rewrite Ht; by apply new_keeps).
    apply union_subseteq_l.
  - destruct (decide (t = new_self (heap w))) as [->|Hne].
    + rewrite new_world_owned, new_world_dom.
      set (x := new_self (heap w)) in *. set (y := new_sim (heap w)) in *.
      clearbody x y. set_solver.
    + assert (env_at (new_world w) t = None) as Hnone.
      { unfold env_at, new_world. cbn [heap].
        rewrite lookup_insert_ne by done.
        destruct (decide (new_sim (heap w) = t)) as [<-|Hne2].
        - by rewrite lookup_insert_eq.
        - rewrite lookup_insert_ne by done.
          rewrite lookup_insert_ne by done.
          exact Ht. }
      unfold owned at 1. rewrite Hnone. apply empty_subseteq.
Qed.

Lemma footprint_state w t :
  footprint w (world_of (PongEnv.state t w)) t.
Proof.
  destruct (stored_frame w t) as [raw|] eqn:Hraw.
  - rewrite (state_returns _ _ _ Hraw). cbn [world_of]. split; [|split].
    + rewrite heap_set_heap. apply state_heap_dom.
    + intros l Hl _. rewrite heap_set_heap. by apply state_heap_old.
    + rewrite (owned_env_at w _ t); [apply union_subseteq_l|].
      destruct (env_at w t) as [a|] eqn:Ht.
      * pose proof (state_keeps w t t a Ht) as Hk.
        by rewrite (state_returns _ _ _ Hraw) in Hk.
      * unfold stored_frame in Hraw. by rewrite Ht in Hraw.
  - destruct (state_raises _ _ Hraw) as [ex ->]. by apply footprint_same_heap.
Qed.

(** The store after [reset] or [step] kept the frame the simulation
    returned. *)
Lemma footprint_store_frame w t a s s' frame term out tk ev :
  heap w !! t = Some (OEnv a) -> heap w !! env a = Some (OSim s) ->
  footprint w
    (mkWorld
       (<[t := OEnv (with_state a
                       (Some (fresh (dom (<[env a := OSim s']> (heap w)))))
                       term)]>
          (<[fresh (dom (<[env a := OSim s']> (heap w))) := OArr3 frame]>
             (<[env a := OSim s']> (heap w))))
       out tk ev) t.
Proof.
  intros Ht Hs.
  set (h1 := <[env a := OSim s']> (heap w)).
  pose proof (is_fresh (dom h1)) as Hf. set (f := fresh (dom h1)) in *.
  assert (dom h1 = dom (heap w)) as Hdom1.
  { unfold h1. rewrite dom_insert_L.
    assert (env a ∈ dom (heap w)) by (apply elem_of_dom; by eexists).
    set_solver. }
  assert (t ∈ dom (heap w)) as Htl by (apply elem_of_dom; by eexists).
  assert (owned w t = {[t]} ∪ {[env a]} ∪
            match _state a with Some st => {[st]} | None => ∅ end) as Hown.
  { unfold owned, env_at. by rewrite Ht. }
  unfold footprint. cbn [heap].
  rewrite !dom_insert_L, Hdom1. rewrite Hdom1 in Hf. split; [|split].
  - set_solver.
  - intros l Hl Hnot. rewrite Hown in Hnot.
    rewrite lookup_insert_ne by set_solver.
    rewrite lookup_insert_ne by (intros <-; done).
    unfold h1. rewrite lookup_insert_ne by set_solver. done.
  - unfold owned at 1, env_at. cbn [heap]. rewrite lookup_insert_eq.
    cbn [env _state with_state]. rewrite Hown.
    clearbody f. clear Hown. set_solver.
Qed.

Lemma footprint_reset w t :
  footprint w (world_of (GymEnvironment.reset t w)) t.
Proof.
  unfold GymEnvironment.reset, bind at 1, get_env.
  destruct (heap w !! t) as [[| a | | | |]|] eqn:Ht;
    try by apply footprint_same_heap.
  unfold bind at 1, get_sim.
  destruct (heap w !! env a) as [[| | s | | |]|] eqn:Hs;
    try by apply footprint_same_heap.
  destruct (gym_reset s) as [s' frame].
  unfold bind, log, store, alloc, set_heap. cbn [heap world_of].
  by eapply footprint_store_frame.
Qed.

Lemma footprint_step w t action :
  footprint w (world_of (GymEnvironment.step t action w)) t.
Proof.
  unfold GymEnvironment.step, bind at 1, get_env.
  destruct (heap w !! t) as [[| a | | | |]|] eqn:Ht;
    try by apply footprint_same_heap.
  unfold bind at 1, get_sim.
  destruct (heap w !! env a) as [[| | s | | |]|] eqn:Hs;
    try by apply footprint_same_heap.
  destruct (gym_step s action) as [[s' frame] term].
  unfold bind, log, store, alloc, set_heap. cbn [heap world_of].
  by eapply footprint_store_frame.
Qed.

Lemma footprint_render_env w t :
  footprint w (world_of (render_env t w)) t.
Proof.
  assert (forall a s s' out,
            heap w !! t = Some (OEnv a) -> heap w !! env a = Some (OSim s) ->
            footprint w (mkWorld (<[env a := OSim s']> (heap w)) out
                                 (ticks w) (events w ++ [EvRender])) t) as Hr.
  { intros a s s' out Ht Hs.
    assert (env a ∈ dom (heap w)) by (apply elem_of_dom; by eexists).
    assert (env a <> t) as Hne by (intros Heq; congruence).
    unfold footprint. cbn [heap]. rewrite dom_insert_L.
    split; [set_solver|]. split.
    - intros l Hl Hnot. rewrite lookup_insert_ne; [done|].
      intros <-. apply Hnot. unfold owned, env_at. rewrite Ht. set_solver.
    - rewrite (owned_env_at w _ t); [apply union_subseteq_l|].
      unfold env_at. cbn [heap]. by rewrite lookup_insert_ne. }
  destruct (render_env_cases w t)
    as [-> | [-> | (a & s & Ht & Hs & [-> | [ex ->]])]];
    try by apply footprint_same_heap.
  - by eapply Hr.
  - by eapply (Hr a s _ (stdout w ++ [exn_str ex])).
Qed.

Lemma footprint_call w t (c : Call) :
  call_on t c -> footprint w (call c w) t.
Proof.
  destruct c as [|self|self memo|self|self action|self]; cbn [call call_on].
  - intros _. rewrite new_returns. apply footprint_new.
  - intros ->. apply footprint_state.
  - intros _. rewrite deepcopy_returns. apply footprint_new.
  - intros ->. apply footprint_reset.
  - intros ->. apply footprint_step.
  - intros ->. apply footprint_render_env.
Qed.

(** An instance whose objects are live and apart from those of [t] is
    not affected by what happens within the footprint of [t]. *)
Lemma footprint_other w w' t o a :
  footprint w w' t ->
  env_at w o = Some a ->
  owned w o ⊆ dom (heap w) ->
  owned w o ## owned w t ->
  view w' o = view w o /\ env_at w' o = Some a /\
  owned w' o ⊆ dom (heap w') /\ owned w' o ## owned w' t.
Proof.
  intros (Hdom & Hold & Hnew) Ho Hlive Hapart.
  assert (forall l, l ∈ owned w o -> heap w' !! l = heap w !! l) as Hsame.
  { intros l Hl. apply Hold; [by apply Hlive|].
    intros Hin. by apply (Hapart l). }
  assert (owned w o = {[o]} ∪ {[env a]} ∪
            match _state a with Some st => {[st]} | None => ∅ end) as Hown.
  { unfold owned. by rewrite Ho. }
  assert (env_at w' o = Some a) as Ho'.
  { unfold env_at. rewrite Hsame by (rewrite Hown; set_solver).
    exact Ho. }
  assert (owned w' o = owned w o) as Hown'.
  { apply owned_env_at. by rewrite Ho, Ho'. }
  split; [|split; [done|split]].
  - unfold view. rewrite Ho, Ho'. cbn [mbind option_bind]. f_equal.
    f_equal.
    + unfold sim_at. by rewrite Hsame by (rewrite Hown; set_solver).
    + destruct (_state a) as [st|] eqn:Hst; [|done].
      cbn [fmap option_fmap option_map]. f_equal. unfold frame_at.
      by rewrite Hsame by (rewrite Hown; set_solver).
  - rewrite Hown'. set_solver.
  - rewrite Hown'. set_solver.
Qed.

Lemma calls_on_other (cs : list Call) w t o a :
  Forall (call_on t) cs ->
  env_at w o = Some a ->
  owned w o ⊆ dom (heap w) ->
  owned w o ## owned w t ->
  view (calls cs w) o = view w o.
Proof.
  intros Hcs. revert w. induction Hcs as [|c cs Hc Hcs IH]; intros w Ho Hl Ha;
    [done|].
  destruct (footprint_other w (call c w) t o a (footprint_call w t c Hc)
              Ho Hl Ha) as (Hview & Ho' & Hl' & Ha').
  cbn [calls foldl]. fold (calls cs (call c w)).
  rewrite (IH _ Ho' Hl' Ha'). exact Hview.
Qed.

End Apart.

(** X7. After [__deepcopy__] the copy and the original live apart: no
    sequence of method calls on the copy ([state], [reset], [step],
    [render_env], further copies) changes anything of the original, its
    attributes, the state of its simulation or its stored frame, and no
    sequence of calls on the original changes anything of the copy. *)
Theorem deepcopy_lives_apart `{G : Gym} `{T : Trainer}
    (w : World) (self : loc) (a : EnvAttrs) (memo : gmap loc loc) :
  env_at w self = Some a ->
  owned w self ⊆ dom (heap w) ->
  exists copy w',
    PongEnv.__deepcopy__ self memo w = Returns copy w' /\
    (forall on_copy : list Call,
        Forall (call_on copy) on_copy ->
        view (calls on_copy w') self = view w self) /\
    (forall on_self : list Call,
        Forall (call_on self) on_self ->
        view (calls on_self w') copy = Some initial_view).
Proof.
  intros Hself Hlive.
  exists (new_self (heap w)), (new_world w).
  split; [apply deepcopy_returns|].
  pose proof (new_self_fresh (heap w)) as Hf1.
  pose proof (new_sim_fresh (heap w)) as Hf2.
  assert (owned (new_world w) self = owned w self) as Hown.
  { apply owned_env_at. by rewrite Hself, (new_keeps _ _ _ Hself). }
  assert (owned (new_world w) (new_self (heap w)) ## owned (new_world w) self)
    as Hapart.
  { rewrite Hown, new_world_owned. set_solver. }
  assert (dom (heap w) ⊆ dom (heap (new_world w))) as Hdom
    by apply (footprint_new w self).
  split.
  - intros cs Hcs.
    rewrite (calls_on_other cs (new_world w) (new_self (heap w)) self a Hcs).
    + assert (owned w (new_self (heap w)) = ∅) as Hnone.
      { unfold owned, env_at, new_self. by rewrite fresh_not_live. }
      apply (footprint_other w (new_world w) (new_self (heap w)) self a
               (footprint_new w _) Hself Hlive).
      rewrite Hnone. set_solver.
    + by apply new_keeps.
    + rewrite Hown. set_solver.
    + by symmetry.
  - intros cs Hcs.
    rewrite (calls_on_other cs (new_world w) self (new_self (heap w))
               (new_attrs (heap w)) Hcs).
    + apply new_world_view.
    + apply env_at_Some, new_world_self.
    + rewrite new_world_owned, new_world_dom. set_solver.
    + exact Hapart.
Qed.

(** The original is object 1 and has been reset; its copy is object 4.
    The copy is reset, stepped, observed and rendered, and the original
    keeps its view; the original is stepped, observed, rendered and
    reset, and the copy stays as constructed. *)
Lemma deepcopy_lives_apart_witness :
  exists copy w',
    PongEnv.__deepcopy__ 1%positive ∅
      (Other.started Other.narrow_frame Other.rescored_frame)
    = Returns copy w' /\
    copy = 4%positive /\
    view (calls [CallReset 4%positive; CallStep 4%positive 2;
                 CallState 4%positive; CallRenderEnv 4%positive] w')
         1%positive
    = view (Other.started Other.narrow_frame Other.rescored_frame)
           1%positive /\
    view (calls [CallStep 1%positive 3; CallState 1%positive;
                 CallRenderEnv 1%positive; CallReset 1%positive] w') copy
    = Some initial_view.
Proof.
  destruct (deepcopy_lives_apart
              (G := Other.gym Other.narrow_frame Other.rescored_frame)
              (T := Sample.trainer)
              (Other.started Other.narrow_frame Other.rescored_frame)
              1%positive
              (mkEnvAttrs 2 "Pong-v0" (Some 3%positive) (Some false)
                 [80; 80] 6) ∅)
    as (copy & w' & Hrun & Hcopy & Horig).
  - vm_compute. reflexivity.
  - apply (bool_decide_unpack _). vm_compute. exact I.
  - assert (copy = 4%positive) as ->.
    { rewrite deepcopy_returns in Hrun. by injection Hrun as <- _. }
    exists 4%positive, w'. split; [exact Hrun|]. split; [reflexivity|].
    split.
    + apply Hcopy. repeat constructor.
    + apply Horig. repeat constructor.
Defined.

(** * One pass of the loop *)

Section OnePass.
Context `{G : Gym} `{T : Trainer}.
Implicit Types (w : World) (h : gmap loc Obj) (e a3c l : loc).

Lemma store_frame_lookups h e a3c a s s' t frame term :
  h !! e = Some (OEnv a) -> h !! env a = Some (OSim s) ->
  h !! a3c = Some (OA3C t) ->
  let h1 := <[env a := OSim s']> h in
  let f := fresh (dom h1) in
  let h' := <[e := OEnv (with_state a (Some f) term)]>
              (<[f := OArr3 frame]> h1) in
  h' !! e = Some (OEnv (with_state a (Some f) term)) /\
  h' !! env a = Some (OSim s') /\
  h' !! f = Some (OArr3 frame) /\
  h' !! a3c = Some (OA3C t).
Proof.
  intros He Hs Ht h1 f h'.
  assert (h1 !! f = None) as Hf by apply not_elem_of_dom, is_fresh.
  assert (h1 !! e = Some (OEnv a)) as He1.
  { unfold h1. rewrite lookup_insert_ne; [done|]. intros Heq. congruence. }
  assert (h1 !! env a = Some (OSim s')) as Hs1 by apply lookup_insert_eq.
  assert (h1 !! a3c = Some (OA3C t)) as Ht1.
  { unfold h1. rewrite lookup_insert_ne; [done|]. intros Heq. congruence. }
  unfold h'. clearbody h1 f. through_inserts; try congruence. done.
Qed.

(** Read the state, let the trainer choose, step: what the three calls
    after [render_env] leave behind. *)
Lemma act_explicit w e a3c a s st raw t :
  heap w !! e = Some (OEnv a) -> heap w !! env a = Some (OSim s) ->
  _state a = Some st -> heap w !! st = Some (OArr3 raw) ->
  heap w !! a3c = Some (OA3C t) ->
  exists w' a',
    (let* obs := PongEnv.state e in
     let* action := select_action a3c obs in
     GymEnvironment.step e action) w = Returns tt w' /\
    heap w' !! a3c = Some (OA3C (selected t raw).1) /\
    heap w' !! e = Some (OEnv a') /\ env a' = env a /\
    _terminated a' = Some (gym_step s (selected t raw).2).2 /\
    sim_at w' (env a) = Some (gym_step s (selected t raw).2).1.1 /\
    stored_frame w' e = Some (gym_step s (selected t raw).2).1.2 /\
    ticks w' = ticks w /\ stdout w' = stdout w /\
    events w' = events w ++ [EvSelectAction; EvStep (selected t raw).2].
Proof.
  intros He Hs Hst Hraw Ht.
  assert (stored_frame w e = Some raw) as Hframe.
  { unfold stored_frame, env_at, frame_at. rewrite He.
    cbn [mbind option_bind]. rewrite Hst. cbn [mbind option_bind].
    by rewrite Hraw. }
  unfold bind at 1. rewrite (state_returns _ _ _ Hframe).
  set (h2 := (state_heap (heap w) raw).2).
  set (obs := (state_heap (heap w) raw).1).
  assert (forall l o, heap w !! l = Some o -> h2 !! l = Some o) as Hold.
  { intros l o Hl. unfold h2. rewrite state_heap_old; [done|].
    apply elem_of_dom. by eexists. }
  assert (h2 !! obs = Some (OArr2 (preprocess raw))) as Hobs
    by apply state_heap_result.
  unfold bind at 1.
  rewrite (select_action_returns _ _ _ t (preprocess raw))
    by (rewrite heap_set_heap; auto).
  fold (selected t raw). set (sel := selected t raw).
  set (h3 := <[a3c := OA3C sel.1]> (heap (set_heap h2 w))).
  assert (h3 !! e = Some (OEnv a)) as He3.
  { unfold h3. rewrite heap_set_heap, lookup_insert_ne; [by apply Hold|].
    intros Heq. congruence. }
  assert (h3 !! env a = Some (OSim s)) as Hs3.
  { unfold h3. rewrite heap_set_heap, lookup_insert_ne; [by apply Hold|].
    intros Heq. congruence. }
  assert (h3 !! a3c = Some (OA3C sel.1)) as Ht3 by apply lookup_insert_eq.
  pose proof (step_returns
    (mkWorld h3 (stdout (set_heap h2 w)) (ticks (set_heap h2 w))
             (events (set_heap h2 w) ++ [EvSelectAction]))
    e a s sel.2 He3 Hs3) as Hstep.
  destruct (gym_step s sel.2) as [[s' frame] term].
  cbv zeta in Hstep. rewrite Hstep.
  destruct (store_frame_lookups h3 e a3c a s s' sel.1 frame (Some term)
              He3 Hs3 Ht3) as (He4 & Hs4 & Hf4 & Ht4).
  eexists _, _. split; [reflexivity|]. cbn [heap ticks stdout events fst snd].
  split; [exact Ht4|]. split; [exact He4|]. split; [done|]. split; [done|].
  split; [unfold sim_at; cbn [heap]; by rewrite Hs4|].
  split.
  { unfold stored_frame, env_at, frame_at. cbn [heap]. rewrite He4.
    cbn [mbind option_bind _state with_state]. by rewrite Hf4. }
  split; [done|]. split; [done|].
  cbn [set_heap events]. by rewrite <- app_assoc.
Qed.

(** One pass, when [render_env] lets the pass go on. *)
Lemma pass_explicit w e a3c a s st raw t s1 failure :
  heap w !! e = Some (OEnv a) -> heap w !! env a = Some (OSim s) ->
  _state a = Some st -> heap w !! st = Some (OArr3 raw) ->
  heap w !! a3c = Some (OA3C t) ->
  gym_render s = (s1, failure) ->
  (forall ex, failure = Some ex ->
              issubclass_Exception (exn_class ex) = true) ->
  exists w' a',
    playback_body e a3c w = Returns tt w' /\
    heap w' !! a3c = Some (OA3C (selected t raw).1) /\
    heap w' !! e = Some (OEnv a') /\ env a' = env a /\
    _terminated a' = Some (gym_step s1 (selected t raw).2).2 /\
    sim_at w' (env a) = Some (gym_step s1 (selected t raw).2).1.1 /\
    stored_frame w' e = Some (gym_step s1 (selected t raw).2).1.2 /\
    ticks w' = ticks w /\
    stdout w' = stdout w ++ printed_lines failure /\
    events w' = events w
                  ++ [EvRender; EvSelectAction; EvStep (selected t raw).2].
Proof.
  intros He Hs Hst Hraw Ht Hrender Hcaught.
  assert (e <> env a) as Hne1 by (intros Heq; congruence).
  assert (st <> env a) as Hne2 by (intros Heq; congruence).
  assert (a3c <> env a) as Hne3 by (intros Heq; congruence).
  unfold playback_body, bind at 1.
  destruct failure as [ex|].
  - rewrite (render_env_caught _ _ _ _ _ _ He Hs Hrender (Hcaught ex eq_refl)).
    destruct (act_explicit (printed (rendered w (env a) s1) ex) e a3c a s1
                st raw t)
      as (w' & a' & Hrun & H1 & H2 & H3 & H4 & H5 & H6 & H7 & H8 & H9);
      try (unfold printed, rendered; cbn [heap];
           first [apply lookup_insert_eq
                 | by rewrite lookup_insert_ne by done
                 | done]).
    exists w', a'. rewrite Hrun, H9, H8.
    cbn [events stdout printed rendered printed_lines].
    rewrite <- app_assoc. repeat split; done.
  - rewrite (render_env_quiet _ _ _ _ _ He Hs Hrender).
    destruct (act_explicit (rendered w (env a) s1) e a3c a s1 st raw t)
      as (w' & a' & Hrun & H1 & H2 & H3 & H4 & H5 & H6 & H7 & H8 & H9);
      try (unfold rendered; cbn [heap];
           first [apply lookup_insert_eq
                 | by rewrite lookup_insert_ne by done
                 | done]).
    exists w', a'. rewrite Hrun, H9, H8.
    cbn [events stdout rendered printed_lines].
    rewrite <- app_assoc, app_nil_r. repeat split; done.
Qed.

End OnePass.

(** X9. One pass of the loop, when rendering lets it go on: the trainer
    is shown the preprocessed grid of the frame that was current when the
    pass began, never the raw frame; the simulation is stepped once, from
    the state rendering left it in, with the action the trainer selected;
    the frame and the terminated flag that step returned become the
    instance's current ones; at most the one line of a caught rendering
    failure is printed. *)
Theorem playback_pass `{G : Gym} `{T : Trainer}
    (w : World) (e a3c : loc) (a : EnvAttrs) (s : Sim) (st : loc)
    (raw : Np.ndarray3) (t : A3C) (s1 : Sim) (failure : option Exn) :
  heap w !! e = Some (OEnv a) -> heap w !! env a = Some (OSim s) ->
  _state a = Some st -> heap w !! st = Some (OArr3 raw) ->
  heap w !! a3c = Some (OA3C t) ->
  gym_render s = (s1, failure) ->
  (forall ex, failure = Some ex ->
              issubclass_Exception (exn_class ex) = true) ->
  exists w' a',
    playback_body e a3c w = Returns tt w' /\
    heap w' !! a3c = Some (OA3C (selected t raw).1) /\
    heap w' !! e = Some (OEnv a') /\ env a' = env a /\
    _terminated a' = Some (gym_step s1 (selected t raw).2).2 /\
    sim_at w' (env a) = Some (gym_step s1 (selected t raw).2).1.1 /\
    stored_frame w' e = Some (gym_step s1 (selected t raw).2).1.2 /\
    ticks w' = ticks w /\
    stdout w' = stdout w ++ printed_lines failure /\
    events w' = events w
                  ++ [EvRender; EvSelectAction; EvStep (selected t raw).2].
Proof. apply pass_explicit. Qed.

Lemma playback_pass_witness :
  exists w' a',
    playback_body 1%positive 3%positive Other.playing = Returns tt w' /\
    heap w' !! 3%positive
    = Some (OA3C (selected (T := Sample.trainer) tt Other.narrow_frame).1) /\
    heap w' !! 1%positive = Some (OEnv a') /\
    env a' = 2%positive /\
    _terminated a'
    = Some (gym_step (Gym := Other.gym Other.narrow_frame Other.narrow_frame)
              O (selected (T := Sample.trainer) tt Other.narrow_frame).2).2 /\
    sim_at w' 2%positive
    = Some (gym_step (Gym := Other.gym Other.narrow_frame Other.narrow_frame)
              O (selected (T := Sample.trainer) tt Other.narrow_frame).2).1.1 /\
    stored_frame w' 1%positive
    = Some (gym_step (Gym := Other.gym Other.narrow_frame Other.narrow_frame)
              O (selected (T := Sample.trainer) tt Other.narrow_frame).2).1.2 /\
    ticks w' = ticks Other.playing /\
    stdout w' = stdout Other.playing ++ printed_lines None /\
    events w' = events Other.playing
                  ++ [EvRender; EvSelectAction;
                      EvStep (selected (T := Sample.trainer) tt
                                Other.narrow_frame).2].
Proof.
  apply (playback_pass (G := Other.gym Other.narrow_frame Other.narrow_frame)
           (T := Sample.trainer)
           Other.playing 1%positive 3%positive
           (mkEnvAttrs 2 "Pong-v0" (Some 4%positive) (Some false) [80; 80] 6)
           O 4%positive Other.narrow_frame tt O None).
  - vm_compute. reflexivity.
  - vm_compute. reflexivity.
  - reflexivity.
  - vm_compute. reflexivity.
  - vm_compute. reflexivity.
  - reflexivity.
  - intros ex Hex. discriminate Hex.
Defined.

(** * The loop and the clock *)

Section Exit.
Context `{G : Gym} `{T : Trainer}.
Variable clock : nat -> Z.
Implicit Types (w : World) (e a3c : loc).

(** A pass either goes through, leaving the store ready for the next
    one, or is cut short by what [render_env] lets through. *)
Lemma pass_cases w e a3c :
  ready w e a3c ->
  (exists w' action,
      playback_body e a3c w = Returns tt w' /\ ready w' e a3c /\
      ticks w' = ticks w /\
      (stdout w' = stdout w \/ exists line, stdout w' = stdout w ++ [line]) /\
      events w' = events w ++ [EvRender; EvSelectAction; EvStep action])
  \/
  (exists ex w' s s',
      playback_body e a3c w = Raises ex w' /\
      gym_render s = (s', Some ex) /\
      issubclass_Exception (exn_class ex) = false).
Proof.
  intros (a & s & st & raw & t & He & Hs & Hst & Hraw & Ht).
  destruct (gym_render s) as [s1 failure] eqn:Hrender.
  assert ((forall ex, failure = Some ex ->
             issubclass_Exception (exn_class ex) = true) \/
          exists ex, failure = Some ex /\
             issubclass_Exception (exn_class ex) = false) as [Hok | Hbad].
  { destruct failure as [ex|]; [|left; by intros].
    destruct (issubclass_Exception (exn_class ex)) eqn:Hex.
    - left. by intros ? [= <-].
    - right. by exists ex. }
  - left.
    destruct (pass_explicit w e a3c a s st raw t s1 failure
                He Hs Hst Hraw Ht Hrender Hok)
      as (w' & a' & Hrun & H1 & H2 & H3 & H4 & H5 & H6 & H7 & H8 & H9).
    exists w', (selected t raw).2. split; [done|].
    split; [|split; [done|split; [|done]]].
    + apply stored_frame_inv in H6 as (a'' & st' & He' & Hst' & Hraw').
      assert (a'' = a') as -> by congruence.
      unfold sim_at in H5. rewrite <- H3 in H5.
      destruct (heap w' !! env a') as [[| | s2 | | |]|] eqn:Hs'; try done.
      unfold ready, ready_heap. eexists a', s2, st', _, _. repeat split; eassumption.
    + rewrite H8. destruct failure; [right; by eexists|left].
      apply app_nil_r.
  - right. destruct Hbad as (ex & -> & Hex).
    exists ex, (rendered w (env a) s1), s, s1.
    unfold playback_body, bind at 1.
    by rewrite (render_env_escapes _ _ _ _ _ _ He Hs Hrender Hex).
Qed.

(** A run of the loop that ends through its condition after [k] more
    passes met a reading 120 seconds or more past [start] at its last
    evaluation of the condition, and readings short of that at the [k]
    evaluations before. *)
Lemma playback_exit e a3c start :
  forall fuel passes w n w',
    ready w e a3c ->
    playback clock fuel e a3c start passes w = Some (Returns n w') ->
    exists k : nat,
      n = (passes + k)%nat /\
      two_minutes <= clock (ticks w + k)%nat - start /\
      (forall j, (j < k)%nat ->
                 clock (ticks w + j)%nat - start < two_minutes) /\
      ticks w' = (ticks w + k + 1)%nat.
Proof.
  unfold two_minutes.
  induction fuel as [|fuel IH]; intros passes w n w' Hr; [done|].
  cbn [playback]. unfold datetime_now, total_seconds_lt.
  set (w1 := mkWorld (heap w) (stdout w) (S (ticks w)) (events w ++ [EvNow])).
  destruct (Z.ltb_spec (clock (ticks w) - start) (120 * 1000000)) as [Hlt|Hge].
  - assert (ready w1 e a3c) as Hr1 by exact Hr.
    destruct (pass_cases w1 e a3c Hr1)
      as [(w2 & action & -> & Hr2 & Hticks & _)
         | (ex & w2 & s & s' & -> & _)]; [|done].
    intros Hrun.
    destruct (IH _ _ _ _ Hr2 Hrun) as (k & -> & Hat & Hbefore & Hend).
    rewrite Hticks in Hat, Hbefore, Hend. cbn [ticks w1] in Hat, Hbefore, Hend.
    exists (S k). split; [lia|]. split.
    { by replace (ticks w + S k)%nat with (S (ticks w) + k)%nat by lia. }
    split; [|lia].
    intros [|j] Hj; [by rewrite Nat.add_0_r|].
    replace (ticks w + S j)%nat with (S (ticks w) + j)%nat by lia.
    apply Hbefore. lia.
  - intros [= <- <-]. exists O. rewrite !Nat.add_0_r.
    split; [done|]. split; [lia|]. split; [intros j Hj; lia|].
    cbn [ticks w1]. lia.
Qed.

End Exit.

(** X8. The loop is left through its clock only, whatever the clock
    does (it may stand still or be set back).  A run of the notebook
    that leaves the loop after [n] passes did so at an evaluation of the
    loop condition at which the clock read 120 seconds or more past
    [start], after [n] evaluations at which it read less; the clock has
    then been read [n + 2] times, once for [start] and once for each
    evaluation. *)
Theorem playback_leaves_by_clock `{G : Gym} `{T : Trainer}
    (clock : nat -> Z) (fuel : nat) (w0 : World) (n : nat) (w : World) :
  notebook clock fuel w0 = Some (Returns n w) ->
  two_minutes <= check_reading clock w0 n - start_reading clock w0 /\
  (forall j, (j < n)%nat ->
     check_reading clock w0 j - start_reading clock w0 < two_minutes) /\
  ticks w = (ticks w0 + n + 2)%nat.
Proof.
  unfold notebook, check_reading, start_reading.
  destruct (setup_spec clock w0) as (e & a3c & w1 & Hsetup & Hr & Hticks & _).
  rewrite Hsetup. intros Hrun.
  destruct (playback_exit clock e a3c _ _ _ _ _ _ Hr Hrun)
    as (k & -> & Hat & Hbefore & Hend).
  rewrite Hticks in Hat, Hbefore, Hend.
  replace (ticks w0 + 1)%nat with (S (ticks w0)) by lia.
  split; [exact Hat|]. split; [exact Hbefore|]. lia.
Qed.

(** Read once a minute, the clock lets the loop make one pass: the
    second evaluation of the condition, two minutes after [start], ends
    it. *)
Lemma playback_leaves_by_clock_witness :
  two_minutes
  <= check_reading Sample.minutes Other.playing 1
     - start_reading Sample.minutes Other.playing /\
  (forall j, (j < 1)%nat ->
     check_reading Sample.minutes Other.playing j
     - start_reading Sample.minutes Other.playing < two_minutes) /\
  ticks (world_of (default (Returns O Other.playing)
                     (notebook Sample.minutes 2 Other.playing)))
  = (ticks Other.playing + 1 + 2)%nat.
Proof.
  apply (playback_leaves_by_clock
           (G := Other.gym Other.narrow_frame Other.narrow_frame)
           (T := Sample.trainer) Sample.minutes 2 Other.playing 1).
  vm_compute. reflexivity.
Defined.

(** * Counting what a run does *)

Lemma count_events_app kind (evs1 evs2 : list Event) :
  count_events kind (evs1 ++ evs2)
  = (count_events kind evs1 + count_events kind evs2)%nat.
Proof. unfold count_events. by rewrite List.filter_app, length_app. Qed.

Section Counting.
Context `{G : Gym} `{T : Trainer}.
Variable clock : nat -> Z.
Implicit Types (w : World) (e a3c : loc).

(** A run of the loop that ends through its condition after [k] passes
    has read the clock [k + 1] times and rendered, asked the trainer and
    stepped [k] times each. *)
Lemma playback_counts e a3c start :
  forall fuel passes w n w',
    ready w e a3c ->
    playback clock fuel e a3c start passes w = Some (Returns n w') ->
    exists (k : nat) evs,
      n = (passes + k)%nat /\
      events w' = events w ++ evs /\
      count_events is_now evs = S k /\
      count_events is_render evs = k /\
      count_events is_select evs = k /\
      count_events is_step evs = k /\
      (length (stdout w') <= length (stdout w) + k)%nat.
Proof.
  induction fuel as [|fuel IH]; intros passes w n w' Hr; [done|].
  cbn [playback]. unfold datetime_now.
  set (w1 := mkWorld (heap w) (stdout w) (S (ticks w)) (events w ++ [EvNow])).
  destruct (total_seconds_lt (clock (ticks w) - start) 120).
  - assert (ready w1 e a3c) as Hr1 by exact Hr.
    destruct (pass_cases w1 e a3c Hr1)
      as [(w2 & action & -> & Hr2 & _ & Hout & Hev)
         | (ex & w2 & s & s' & -> & _)]; [|done].
    intros Hrun.
    destruct (IH _ _ _ _ Hr2 Hrun) as (k & evs & -> & Hevs & Hc1 & Hc2 & Hc3 & Hc4 & Hlen).
    exists (S k), ([EvNow; EvRender; EvSelectAction; EvStep action] ++ evs).
    split; [lia|]. split.
    { rewrite Hevs, Hev. cbn [events w1]. by rewrite <- !app_assoc. }
    rewrite !count_events_app, Hc1, Hc2, Hc3, Hc4.
    repeat (split; [reflexivity|]).
    assert (length (stdout w2) <= S (length (stdout w)))%nat; [|lia].
    destruct Hout as [-> | [line ->]]; cbn [stdout w1];
      [|rewrite length_app; simpl]; lia.
  - intros [= <- <-]. exists O, [EvNow].
    split; [lia|]. split; [done|]. repeat (split; [reflexivity|]).
    cbn [stdout w1]. lia.
Qed.

End Counting.

(** Nothing before the loop prints. *)
Section Quiet.
Context `{G : Gym} `{T : Trainer}.

Lemma quiet_bind {A B} (m : Py A) (k : A -> Py B) :
  (forall w, stdout (world_of (m w)) = stdout w) ->
  (forall a w, stdout (world_of (k a w)) = stdout w) ->
  forall w, stdout (world_of (bind m k w)) = stdout w.
Proof.
  intros Hm Hk w. unfold bind. specialize (Hm w).
  destruct (m w) as [a w1|ex w1]; cbn [world_of] in *; [|done].
  by rewrite Hk.
Qed.

Lemma quiet_get_a3c l w : stdout (world_of (get_a3c l w)) = stdout w.
Proof. unfold get_a3c. by destruct (heap w !! l) as [[]|]. Qed.

Lemma quiet_get_env l w : stdout (world_of (get_env l w)) = stdout w.
Proof. unfold get_env. by destruct (heap w !! l) as [[]|]. Qed.

Lemma quiet_get_sim l w : stdout (world_of (get_sim l w)) = stdout w.
Proof. unfold get_sim. by destruct (heap w !! l) as [[]|]. Qed.

Lemma quiet_fit a3c steps r w :
  stdout (world_of (fit a3c steps r w)) = stdout w.
Proof.
  unfold fit. apply quiet_bind; [apply quiet_get_a3c|]. intros t w1.
  by apply quiet_bind.
Qed.

Lemma quiet_fit_rounds n a3c w :
  stdout (world_of (fit_rounds n a3c w)) = stdout w.
Proof.
  revert w. induction n as [|n IH]; intros w; [done|].
  cbn [fit_rounds]. apply quiet_bind; [apply quiet_fit|]. intros _. apply IH.
Qed.

Lemma quiet_restore a3c w : stdout (world_of (restore a3c w)) = stdout w.
Proof.
  unfold restore. apply quiet_bind; [apply quiet_get_a3c|]. intros t w1.
  by apply quiet_bind.
Qed.

Lemma quiet_reset e w :
  stdout (world_of (GymEnvironment.reset e w)) = stdout w.
Proof.
  unfold GymEnvironment.reset.
  apply quiet_bind; [apply quiet_get_env|]. intros a w1.
  apply quiet_bind; [apply quiet_get_sim|]. intros s w2.
  apply quiet_bind; [done|]. intros _ w3.
  destruct (gym_reset s) as [s' frame].
  apply quiet_bind; [done|]. intros _ w4.
  by apply quiet_bind.
Qed.

Lemma quiet_setup clock w : stdout (world_of (setup clock w)) = stdout w.
Proof.
  unfold setup.
  apply quiet_bind; [intros w1; by rewrite new_returns|]. intros e w1.
  apply quiet_bind; [by apply quiet_bind|]. intros a3c w2.
  apply quiet_bind; [apply quiet_fit|]. intros _ w3.
  apply quiet_bind; [apply quiet_fit_rounds|]. intros _ w4.
  apply quiet_bind; [apply quiet_restore|]. intros _ w5.
  apply quiet_bind; [apply quiet_reset|]. intros _ w6.
  by apply quiet_bind.
Qed.

End Quiet.

(** X11. In a run of the notebook that leaves the loop through its
    condition after [n] passes, the loop has rendered [n] times, asked
    the trainer for an action [n] times, stepped the environment [n]
    times and read the clock [n + 1] times; it has printed at most [n]
    lines. *)
Theorem notebook_counts `{G : Gym} `{T : Trainer}
    (clock : nat -> Z) (fuel : nat) (w0 : World) (n : nat) (w : World) :
  notebook clock fuel w0 = Some (Returns n w) ->
  exists evs,
    events w = events w0 ++ setup_events ++ evs /\
    count_events is_now evs = S n /\
    count_events is_render evs = n /\
    count_events is_select evs = n /\
    count_events is_step evs = n /\
    (length (stdout w) <= length (stdout w0) + n)%nat.
Proof.
  unfold notebook.
  destruct (setup_spec clock w0) as (e & a3c & w1 & Hsetup & Hr & _ & Hev).
  rewrite Hsetup. intros Hrun.
  destruct (playback_counts clock e a3c _ _ _ _ _ _ Hr Hrun)
    as (k & evs & -> & Hevs & Hc1 & Hc2 & Hc3 & Hc4 & Hlen).
  exists evs. split; [by rewrite Hevs, Hev, <- app_assoc|].
  repeat (split; [done|]).
  pose proof (quiet_setup clock w0) as Hquiet.
  rewrite Hsetup in Hquiet. cbn [world_of] in Hquiet. by rewrite <- Hquiet.
Qed.

Lemma notebook_counts_witness :
  exists evs,
    events (world_of (default (Returns O Other.playing)
                        (notebook Sample.minutes 2 Other.playing)))
    = events Other.playing ++ setup_events ++ evs /\
    count_events is_now evs = 2%nat /\
    count_events is_render evs = 1%nat /\
    count_events is_select evs = 1%nat /\
    count_events is_step evs = 1%nat /\
    (length (stdout (world_of (default (Returns O Other.playing)
                        (notebook Sample.minutes 2 Other.playing))))
     <= length (stdout Other.playing) + 1)%nat.
Proof.
  apply (notebook_counts
           (G := Other.gym Other.narrow_frame Other.narrow_frame)
           (T := Sample.trainer) Sample.minutes 2 Other.playing 1).
  vm_compute. reflexivity.
Defined.

(** * The observation follows the simulation *)

Section Latest.
Context `{G : Gym} `{T : Trainer}.
Implicit Types (w : World) (h : gmap loc Obj) (e l : loc).

(** After the frame of a reset or a step is stored, it is the frame
    behind [_state]. *)
Lemma store_frame_current h e a s s' frame term out tk ev :
  h !! e = Some (OEnv a) -> h !! env a = Some (OSim s) ->
  stored_frame
    (mkWorld
       (<[e := OEnv (with_state a
                       (Some (fresh (dom (<[env a := OSim s']> h)))) term)]>
          (<[fresh (dom (<[env a := OSim s']> h)) := OArr3 frame]>
             (<[env a := OSim s']> h)))
       out tk ev) e
  = Some frame.
Proof.
  intros He Hs.
  set (h1 := <[env a := OSim s']> h).
  assert (fresh (dom h1) <> e) as Hne.
  { intros Heq. apply (is_fresh (dom h1)). rewrite Heq.
    apply elem_of_dom. unfold h1.
    rewrite lookup_insert_ne; [by eexists|]. intros Heq'. congruence. }
  unfold stored_frame, env_at, frame_at. cbn [heap].
  rewrite lookup_insert_eq. cbn [mbind option_bind _state with_state].
  rewrite lookup_insert_ne by done. by rewrite lookup_insert_eq.
Qed.

End Latest.

(** X12. The observation always comes from the latest frame.  After a
    [reset], and after every [step], of an instance with a live
    simulation, [state] returns the preprocessed grid of the frame that
    call got from the simulation, whatever frame was stored before. *)
Theorem state_follows_simulation `{G : Gym} `{T : Trainer}
    (w : World) (e : loc) (a : EnvAttrs) (s : Sim) (action : Z) :
  env_at w e = Some a ->
  sim_at w (env a) = Some s ->
  (exists w1 r w2,
      GymEnvironment.reset e w = Returns tt w1 /\
      PongEnv.state e w1 = Returns r w2 /\
      grid_at w2 r = Some (preprocess (gym_reset s).2))
  /\
  (exists w1 r w2,
      GymEnvironment.step e action w = Returns tt w1 /\
      PongEnv.state e w1 = Returns r w2 /\
      grid_at w2 r = Some (preprocess (gym_step s action).1.2)).
Proof.
  intros He%env_at_Some Hs.
  assert (heap w !! env a = Some (OSim s)) as Hs'.
  { unfold sim_at in Hs. by destruct (heap w !! env a) as [[]|]; simplify_eq. }
  split.
  - pose proof (reset_returns w e a s He Hs') as Hreset.
    pose proof (store_frame_current (heap w) e a s (gym_reset s).1
                  (gym_reset s).2 (Some false) (stdout w) (ticks w)
                  (events w ++ [EvReset]) He Hs') as Hframe.
    destruct (gym_reset s) as [s' frame]. cbv zeta in Hreset.
    cbn [fst snd] in *.
    eexists _, _, _. split; [exact Hreset|].
    split; [by apply state_returns|].
    unfold grid_at. rewrite heap_set_heap. by rewrite state_heap_result.
  - pose proof (step_returns w e a s action He Hs') as Hstep.
    pose proof (store_frame_current (heap w) e a s (gym_step s action).1.1
                  (gym_step s action).1.2 (Some (gym_step s action).2)
                  (stdout w) (ticks w)
                  (events w ++ [EvStep action]) He Hs') as Hframe.
    destruct (gym_step s action) as [[s' frame] term]. cbv zeta in Hstep.
    cbn [fst snd] in *.
    eexists _, _, _. split; [exact Hstep|].
    split; [by apply state_returns|].
    unfold grid_at. rewrite heap_set_heap. by rewrite state_heap_result.
Qed.

Lemma state_follows_simulation_witness :
  (exists w1 r w2,
      GymEnvironment.reset 1%positive
        (Other.started sample_frame Other.rescored_frame) = Returns tt w1 /\
      PongEnv.state 1%positive w1 = Returns r w2 /\
      grid_at w2 r
      = Some (preprocess
                (gym_reset (Gym := Other.gym sample_frame
                                     Other.rescored_frame) O).2))
  /\
  (exists w1 r w2,
      GymEnvironment.step 1%positive 2
        (Other.started sample_frame Other.rescored_frame) = Returns tt w1 /\
      PongEnv.state 1%positive w1 = Returns r w2 /\
      grid_at w2 r
      = Some (preprocess
                (gym_step (Gym := Other.gym sample_frame
                                    Other.rescored_frame) O 2).1.2)).
Proof.
  apply (state_follows_simulation
           (G := Other.gym sample_frame Other.rescored_frame)
           (T := Sample.trainer)
           (Other.started sample_frame Other.rescored_frame) 1%positive
           (mkEnvAttrs 2 "Pong-v0" (Some 3%positive) (Some false) [80; 80] 6)
           O 2).
  - vm_compute. reflexivity.
  - vm_compute. reflexivity.
Defined.
